(** * Configuration of the analytics dashboard server

    A shallow embedding of [server-config.py] (the per-client record
    [ClientConfig]) and of [config.py] (the profile classes [Config],
    [DevelopmentConfig], [ProductionConfig], [TestConfig] and the factory
    [get_config]), followed by the properties of the lookup helpers.

    Python objects are modelled as follows.
    - [str] is [string]; a table id, which is a string or [None], is an
      [option string]; the strings, [None] and booleans stored in the
      per-table dictionaries are the constructors of [Py.value].
    - [ClientConfig.TABLE_IDS] is only read by key, so it is a
      [gmap string (option string)].  [FRESH_TABLES] and the per-table
      dictionaries are iterated in insertion order, so they are ordered
      dictionaries ([Py.odict], an association list with Python's
      assignment semantics).
    - Subscripting a dictionary and importing a module can raise; code on
      those paths lives in the [Py.result] monad.
    - [str.lower] is modelled on ASCII text ([Py.lower]); where its
      result on other text would show, it is a parameter. *)

From Stdlib Require Import ZArith Ascii String.
From stdpp Require Import base option list strings gmap.

Local Open Scope Z_scope.

(** ** A small model of the Python runtime *)

Module Py.

Inductive value : Type :=
| PyNone
| PyStr (s : string)
| PyBool (b : bool).

#[global] Instance value_eq_dec : EqDecision value.
Proof. solve_decision. Defined.

(** A name bound to a string or to [None] (a table id): [option string],
    with [None] for Python's [None]. *)
Definition to_value (x : option string) : value :=
  match x with
  | Some s => PyStr s
  | None => PyNone
  end.

(** [x is not None] *)
Definition is_not_none (x : option string) : bool :=
  match x with None => false | Some _ => true end.

(** [x != y] on strings-or-[None], [x == y] on dictionary values. *)
Definition py_ne (x y : option string) : bool := negb (bool_decide (x = y)).
Definition py_eq (x y : value) : bool := bool_decide (x = y).

(** Truth value of a string-or-[None]: [None] and [''] are false. *)
Definition truthy (x : option string) : bool :=
  match x with
  | None => false
  | Some s => negb (bool_decide (s = ""))
  end.

Inductive exn : Type :=
| KeyError (key : string)
| AttributeError (name : string)
| ImportError
| OtherException (what : string).

Inductive result (A : Type) : Type :=
| Ok (a : A)
| Raise (e : exn).
Arguments Ok {A} a.
Arguments Raise {A} e.

#[global] Instance result_ret : MRet result := fun A a => Ok a.
#[global] Instance result_bind : MBind result := fun A B f m =>
  match m with
  | Ok a => f a
  | Raise e => Raise e
  end.

(** *** Strings *)

Definition lower_char (c : ascii) : ascii :=
  let n := N_of_ascii c in
  if ((65 <=? n) && (n <=? 90))%N then ascii_of_N (n + 32) else c.

(** [s.lower()] on ASCII text: the letters [A]-[Z] become [a]-[z] and
    every other character is left as it is.  [get_config] only compares
    the lower-cased value with two ASCII words, which this function
    decides as [str.lower] does.  Where the lower-cased text itself is
    returned ([get_client_config_for_frontend]), [str.lower] with its
    Unicode case tables is a parameter of the model instead. *)
Fixpoint lower (s : string) : string :=
  match s with
  | EmptyString => EmptyString
  | String c s' => String (lower_char c) (lower s')
  end.

(** [s.replace(old, new)]: every non-overlapping occurrence of [old],
    scanning from the left, becomes [new].  [skip] counts the characters
    of an occurrence still to be dropped.  For an empty [old], Python
    puts [new] before every character and at the end. *)
Fixpoint replace_from (old new s : string) (skip : nat) : string :=
  match s with
  | EmptyString => EmptyString
  | String c s' =>
      match skip with
      | S k => replace_from old new s' k
      | O =>
          if String.prefix old s
          then new +:+ replace_from old new s' (Nat.pred (String.length old))
          else String c (replace_from old new s' O)
      end
  end.

Fixpoint interleave (new s : string) : string :=
  match s with
  | EmptyString => new
  | String c s' => new +:+ String c (interleave new s')
  end.

Definition replace (s old new : string) : string :=
  match old with
  | EmptyString => interleave new s
  | _ => replace_from old new s O
  end.

(** *** Lists *)

(** [x in l] for a list of strings. *)
Definition contains (l : list string) (x : string) : bool :=
  existsb (String.eqb x) l.

(** *** Dictionaries in insertion order *)

Definition odict (A : Type) : Type := list (string * A).

Fixpoint dict_get {A} (d : odict A) (k : string) : option A :=
  match d with
  | [] => None
  | (k', v) :: d' => if String.eqb k' k then Some v else dict_get d' k
  end.

(** [d[k]] *)
Definition subscript {A} (d : odict A) (k : string) : result A :=
  match dict_get d k with
  | Some v => Ok v
  | None => Raise (KeyError k)
  end.

(** [d[k] = v]: an existing key keeps its position, a new one goes last. *)
Fixpoint dict_set {A} (d : odict A) (k : string) (v : A) : odict A :=
  match d with
  | [] => [(k, v)]
  | (k', v') :: d' =>
      if String.eqb k' k then (k', v) :: d' else (k', v') :: dict_set d' k v
  end.

Definition keys {A} (d : odict A) : list string := map fst d.
Definition values {A} (d : odict A) : list A := map snd d.
Definition items {A} (d : odict A) : list (string * A) := d.

(** A dictionary display [{k1: v1, ..., kn: vn}]. *)
Definition display {A} (kvs : list (string * A)) : odict A :=
  fold_left (fun d kv => dict_set d (fst kv) (snd kv)) kvs [].

(** [m.get(k)] and [m[k]] on an unordered dictionary. *)
Definition map_get (m : gmap string (option string)) (k : string)
    : option string :=
  match m !! k with
  | Some v => v
  | None => None
  end.

Definition map_subscript (m : gmap string (option string)) (k : string)
    : result (option string) :=
  match m !! k with
  | Some v => Ok v
  | None => Raise (KeyError k)
  end.

End Py.

Import Py.

(** ** server-config.py *)

Record ClientConfig : Type := {
  CLIENT_NAME : string;
  BUSINESS_NAME : string;
  AIRTABLE_BASE_ID : string;
  TABLE_IDS : gmap string (option string);
  ENABLED_SOURCES : list string;
  DISABLED_SOURCES : list string
}.

Definition TableConfig : Type := odict value.

Section client_config.

Variable cls : ClientConfig.

(** The operands of [and] are all booleans here, so the chain is [&&]. *)
Definition is_enabled (data_source : string) : bool :=
  contains (ENABLED_SOURCES cls) data_source
  && is_not_none (map_get (TABLE_IDS cls) data_source)
  && py_ne (map_get (TABLE_IDS cls) data_source) (Some "null")
  && py_ne (map_get (TABLE_IDS cls) data_source) (Some "").

Definition get_table_id (data_source : string) : option string :=
  let table_id := map_get (TABLE_IDS cls) data_source in
  if truthy table_id && py_ne table_id (Some "null") && py_ne table_id (Some "")
  then table_id else None.

Definition get_base_id : string := AIRTABLE_BASE_ID cls.

(** The display assigned to [fresh_tables[key]]; the name is the f-string
    [f'{cls.CLIENT_NAME} <suffix>']. *)
Definition fresh_entry (id : option string) (suffix date_field : string)
    : TableConfig :=
  display [
    ("id", to_value id);
    ("name", PyStr (CLIENT_NAME cls +:+ " " +:+ suffix));
    ("date_field", PyStr date_field);
    ("sort_direction", PyStr "desc")].

(** One [if cls.is_enabled(key): fresh_tables[key] = {...}] block. *)
Definition add_source (fresh_tables : odict TableConfig)
    (key suffix date_field : string) : result (odict TableConfig) :=
  if is_enabled key then
    id ← map_subscript (TABLE_IDS cls) key;
    mret (dict_set fresh_tables key (fresh_entry id suffix date_field))
  else mret fresh_tables.

Definition get_fresh_tables : result (odict TableConfig) :=
  let fresh_tables := [] in
  fresh_tables ← add_source fresh_tables "ghl" "GHL" "Date Created";
  fresh_tables ← add_source fresh_tables "pos" "POS" "Created";
  fresh_tables ← add_source fresh_tables "google_ads" "Google Ads" "Date";
  fresh_tables ← add_source fresh_tables "meta_ads" "Meta Ads" "Reporting ends";
  fresh_tables ← add_source fresh_tables "meta_ads_summary" "Meta Ads Summary" "Reporting ends";
  fresh_tables ← add_source fresh_tables "meta_ads_simplified" "Meta Ads Simplified" "period";
  fresh_tables ← add_source fresh_tables "meta_ads_performance" "Meta Ads Performance" "Date";
  mret fresh_tables.

End client_config.

(** The record returned by [get_client_config_for_frontend]: a display of
    displays with fixed keys, one record per nested dictionary. *)
Record ClientInfo : Type := {
  client_id : string;
  business_name : string
}.

Record DataSources : Type := {
  enabled_sources : list string;
  disabled_sources : list string
}.

Record TabConfiguration : Type := {
  enabled_tabs : list string;
  default_tab : string
}.

Record AirtableConfiguration : Type := {
  base_id : string
}.

Record FrontendConfig : Type := {
  client_info : ClientInfo;
  data_sources : DataSources;
  tab_configuration : TabConfiguration;
  airtable_configuration : AirtableConfiguration
}.

(** [str_lower] is the method [str.lower]: its Unicode case tables are
    not part of the repository, so the function is taken as a parameter.
    Strings are UTF-8 byte sequences; no byte of a multi-byte character
    is a space, so [replace(' ', '_')] acts on bytes as on characters. *)
Definition get_client_config_for_frontend (str_lower : string -> string)
    (cls : ClientConfig) : FrontendConfig :=
  {| client_info :=
       {| client_id := replace (str_lower (CLIENT_NAME cls)) " " "_";
          business_name := BUSINESS_NAME cls |};
     data_sources :=
       {| enabled_sources := ENABLED_SOURCES cls;
          disabled_sources := DISABLED_SOURCES cls |};
     tab_configuration :=
       {| enabled_tabs := ["overview"] ++ ENABLED_SOURCES cls;
          default_tab := "overview" |};
     airtable_configuration :=
       {| base_id := AIRTABLE_BASE_ID cls |} |}.

(** The class attributes as they stand in [server-config.py]. *)
Definition Cellular_Zone : ClientConfig :=
  {| CLIENT_NAME := "Cellular Zone";
     BUSINESS_NAME := "Cellular Zone";
     AIRTABLE_BASE_ID := "app9JgRBZC2GNlaKM";
     TABLE_IDS :=
       <["meta_ads_performance" := None]>
       (<["meta_ads_summary" := None]>
       (<["meta_ads_simplified" := None]>
       (<["meta_ads" := None]>
       (<["pos" := None]>
       (<["google_ads" := Some "tblIhvVihVoghHfVa"]>
       (<["ghl" := Some "tbl0Er1mMwZO1Pvfj"]> ∅))))));
     ENABLED_SOURCES := ["ghl"; "google_ads"];
     DISABLED_SOURCES := [] |}.

(** The per-source-key table of the specification (section 4.1): key,
    display-name suffix, date field. *)
Definition SOURCE_METADATA : list (string * (string * string)) :=
  [("ghl", ("GHL", "Date Created"));
   ("pos", ("POS", "Created"));
   ("google_ads", ("Google Ads", "Date"));
   ("meta_ads", ("Meta Ads", "Reporting ends"));
   ("meta_ads_summary", ("Meta Ads Summary", "Reporting ends"));
   ("meta_ads_simplified", ("Meta Ads Simplified", "period"));
   ("meta_ads_performance", ("Meta Ads Performance", "Date"))].

Definition SOURCE_KEYS : list string := map fst SOURCE_METADATA.

(** The derived mapping in the words of the specification: one entry for
    each enabled key of the table, carrying the configured table id. *)
Definition derived_from (cls : ClientConfig)
    (table : list (string * (string * string))) : odict TableConfig :=
  map (fun m => (m.1, fresh_entry cls (map_get (TABLE_IDS cls) m.1) m.2.1 m.2.2))
      (filter (fun m => is_enabled cls m.1 = true) table).

Definition derived_fresh_tables (cls : ClientConfig) : odict TableConfig :=
  derived_from cls SOURCE_METADATA.

(** ** config.py *)

Definition PLACEHOLDER_TABLES : odict TableConfig :=
  display [
    ("ghl", display [
      ("id", PyStr "CLIENT_GHL_TABLE_ID");
      ("name", PyStr "CLIENT_NAME GHL");
      ("date_field", PyStr "Date Created");
      ("sort_direction", PyStr "desc")]);
    ("pos", display [
      ("id", PyStr "CLIENT_POS_TABLE_ID");
      ("name", PyStr "CLIENT_NAME POS");
      ("date_field", PyStr "Created");
      ("sort_direction", PyStr "desc")]);
    ("meta_ads", display [
      ("id", PyStr "CLIENT_META_ADS_TABLE_ID");
      ("name", PyStr "CLIENT_NAME Meta Ads");
      ("date_field", PyStr "Reporting ends");
      ("sort_direction", PyStr "desc")]);
    ("meta_ads_summary", display [
      ("id", PyStr "CLIENT_META_ADS_SUMMARY_TABLE_ID");
      ("name", PyStr "CLIENT_NAME Meta Ads Summary");
      ("date_field", PyStr "Reporting ends");
      ("sort_direction", PyStr "desc")]);
    ("meta_ads_simplified", display [
      ("id", PyStr "CLIENT_META_ADS_SIMPLIFIED_TABLE_ID");
      ("name", PyStr "CLIENT_NAME Meta Ads Simplified");
      ("date_field", PyStr "period");
      ("sort_direction", PyStr "desc")]);
    ("google_ads", display [
      ("id", PyStr "CLIENT_GOOGLE_ADS_TABLE_ID");
      ("name", PyStr "CLIENT_NAME Google Ads");
      ("date_field", PyStr "Date");
      ("sort_direction", PyStr "desc")])].

(** The [try]/[except ImportError] in the body of [Config].
    [server_config] is what [from server_config import ClientConfig] does:
    it binds the class or raises.  [ImportError] (with its subclass
    [ModuleNotFoundError]) from the [try] block selects the placeholder;
    any other exception leaves the class body. *)
Definition load_FRESH_TABLES (server_config : result ClientConfig)
    : result (odict TableConfig) :=
  match (client ← server_config; get_fresh_tables client) with
  | Ok tables => Ok tables
  | Raise ImportError => Ok PLACEHOLDER_TABLES
  | Raise e => Raise e
  end.

Inductive class : Type :=
| Config
| DevelopmentConfig
| ProductionConfig
| TestConfig.

#[global] Instance class_eq_dec : EqDecision class.
Proof. solve_decision. Defined.

(** [class C(B)]: the one base of each class. *)
Definition base (c : class) : option class :=
  match c with
  | Config => None
  | DevelopmentConfig | ProductionConfig | TestConfig => Some Config
  end.

(** The attributes a class body assigns; [None] where it assigns nothing. *)
Record ClassBody : Type := {
  CLAUDE_API_URL : option string;
  AIRTABLE_BASE_URL : option string;
  HOST : option string;
  PORT : option Z;
  CLAUDE_API_TIMEOUT : option Z;
  AIRTABLE_API_TIMEOUT : option Z;
  MAX_RECORDS_PER_REQUEST : option Z;
  MAX_TOTAL_RECORDS : option Z;
  MAX_PAGINATION_PAGES : option Z;
  DEBUG : option bool;
  LOG_LEVEL : option string;
  LOG_FORMAT : option string;
  LOG_DATE_FORMAT : option string;
  LOG_FILE_MAX_BYTES : option Z;
  LOG_BACKUP_COUNT : option Z;
  CORS_ORIGINS : option (list string);
  FRESH_TABLES : option (odict TableConfig);
  LEGACY_TABLES : option (odict TableConfig)
}.

Section profiles.

(** The value the body of [Config] computed for [FRESH_TABLES]. *)
Variable fresh : odict TableConfig.

Definition body (c : class) : ClassBody :=
  match c with
  | Config =>
      {| CLAUDE_API_URL := Some "https://api.anthropic.com/v1/messages";
         AIRTABLE_BASE_URL := Some "https://api.airtable.com/v0";
         HOST := Some "127.0.0.1";
         PORT := Some 8000;
         CLAUDE_API_TIMEOUT := Some 30;
         AIRTABLE_API_TIMEOUT := Some 15;
         MAX_RECORDS_PER_REQUEST := Some 100;
         MAX_TOTAL_RECORDS := Some 10000;
         MAX_PAGINATION_PAGES := Some 50;
         DEBUG := None;
         LOG_LEVEL := Some "INFO";
         LOG_FORMAT := Some "%(asctime)s | %(levelname)-8s | %(name)s | %(message)s";
         LOG_DATE_FORMAT := Some "%Y-%m-%d %H:%M:%S";
         LOG_FILE_MAX_BYTES := Some (10 * 1024 * 1024);
         LOG_BACKUP_COUNT := Some 5;
         CORS_ORIGINS := Some ["http://localhost:3000"; "http://localhost:8000";
                               "http://127.0.0.1:8000"];
         FRESH_TABLES := Some fresh;
         LEGACY_TABLES := Some (display []) |}
  | DevelopmentConfig =>
      {| CLAUDE_API_URL := None; AIRTABLE_BASE_URL := None; HOST := None;
         PORT := None; CLAUDE_API_TIMEOUT := None; AIRTABLE_API_TIMEOUT := None;
         MAX_RECORDS_PER_REQUEST := None; MAX_TOTAL_RECORDS := None;
         MAX_PAGINATION_PAGES := None;
         DEBUG := Some true;
         LOG_LEVEL := Some "DEBUG";
         LOG_FORMAT := Some "%(asctime)s | %(levelname)-8s | %(name)-15s | %(funcName)-20s | %(message)s";
         LOG_DATE_FORMAT := None; LOG_FILE_MAX_BYTES := None;
         LOG_BACKUP_COUNT := None; CORS_ORIGINS := None; FRESH_TABLES := None;
         LEGACY_TABLES := None |}
  | ProductionConfig =>
      {| CLAUDE_API_URL := None; AIRTABLE_BASE_URL := None; HOST := None;
         PORT := None; CLAUDE_API_TIMEOUT := None; AIRTABLE_API_TIMEOUT := None;
         MAX_RECORDS_PER_REQUEST := None;
         MAX_TOTAL_RECORDS := Some 5000;
         MAX_PAGINATION_PAGES := None;
         DEBUG := Some false;
         LOG_LEVEL := Some "INFO";
         LOG_FORMAT := None; LOG_DATE_FORMAT := None; LOG_FILE_MAX_BYTES := None;
         LOG_BACKUP_COUNT := None;
         CORS_ORIGINS := Some ["http://localhost:8000"; "http://127.0.0.1:8000"];
         FRESH_TABLES := None; LEGACY_TABLES := None |}
  | TestConfig =>
      {| CLAUDE_API_URL := None; AIRTABLE_BASE_URL := None; HOST := None;
         PORT := None; CLAUDE_API_TIMEOUT := None; AIRTABLE_API_TIMEOUT := None;
         MAX_RECORDS_PER_REQUEST := None;
         MAX_TOTAL_RECORDS := Some 100;
         MAX_PAGINATION_PAGES := Some 5;
         DEBUG := Some true;
         LOG_LEVEL := Some "WARNING";
         LOG_FORMAT := None; LOG_DATE_FORMAT := None; LOG_FILE_MAX_BYTES := None;
         LOG_BACKUP_COUNT := None; CORS_ORIGINS := None; FRESH_TABLES := None;
         LEGACY_TABLES := None |}
  end.

(** Method resolution order: the class, then its bases. *)
Definition mro (c : class) : list class :=
  match base c with
  | Some b => [c; b]
  | None => [c]
  end.

Fixpoint lookup_attr {A} (attr : ClassBody -> option A) (cs : list class)
    : option A :=
  match cs with
  | [] => None
  | c :: cs' =>
      match attr (body c) with
      | Some v => Some v
      | None => lookup_attr attr cs'
      end
  end.

(** [cls.name] *)
Definition getattr {A} (cls : class) (attr : ClassBody -> option A)
    (name : string) : result A :=
  match lookup_attr attr (mro cls) with
  | Some v => Ok v
  | None => Raise (AttributeError name)
  end.

(** [{**config, 'type': table_type, 'is_legacy': False}] *)
Definition with_type (config : TableConfig) (table_type : string) : TableConfig :=
  display (items config ++
           [("type", PyStr table_type); ("is_legacy", PyBool false)]).

(** The [for table_type, config in ...items()] loop of [get_table_config]. *)
Fixpoint find_table (entries : list (string * TableConfig)) (table_id : value)
    : result (option TableConfig) :=
  match entries with
  | [] => mret None
  | (table_type, config) :: rest =>
      id ← subscript config "id";
      if py_eq id table_id
      then mret (Some (with_type config table_type))
      else find_table rest table_id
  end.

Definition get_table_config (cls : class) (table_id : value)
    : result (option TableConfig) :=
  tables ← getattr cls FRESH_TABLES "FRESH_TABLES";
  find_table (items tables) table_id.

(** The comprehension [[config['id'] for config in ...values()]]. *)
Fixpoint ids_of (configs : list TableConfig) : result (list value) :=
  match configs with
  | [] => mret []
  | config :: rest =>
      id ← subscript config "id";
      ids ← ids_of rest;
      mret (id :: ids)
  end.

Definition get_all_table_ids (cls : class) : result (list value) :=
  tables ← getattr cls FRESH_TABLES "FRESH_TABLES";
  fresh_ids ← ids_of (values tables);
  mret fresh_ids.

End profiles.

(** [os.getenv(key, default)] over the process environment. *)
Definition os_getenv (environ : gmap string string) (key default : string)
    : string :=
  match environ !! key with
  | Some v => v
  | None => default
  end.

Definition get_config (environ : gmap string string) : class :=
  let env := lower (os_getenv environ "FLASK_ENV" "production") in
  if bool_decide (env = "development") then DevelopmentConfig
  else if bool_decide (env = "testing") then TestConfig
  else ProductionConfig.

(** [AppConfig = get_config()] *)
Definition AppConfig (environ : gmap string string) : class :=
  get_config environ.

(** ** Definitions used in the statements *)

(** The template client whose derived mapping the placeholder mirrors. *)
Definition TEMPLATE_CLIENT : ClientConfig :=
  {| CLIENT_NAME := "CLIENT_NAME";
     BUSINESS_NAME := "CLIENT_NAME";
     AIRTABLE_BASE_ID := "CLIENT_BASE_ID";
     TABLE_IDS :=
       <["google_ads" := Some "CLIENT_GOOGLE_ADS_TABLE_ID"]>
       (<["meta_ads_simplified" := Some "CLIENT_META_ADS_SIMPLIFIED_TABLE_ID"]>
       (<["meta_ads_summary" := Some "CLIENT_META_ADS_SUMMARY_TABLE_ID"]>
       (<["meta_ads" := Some "CLIENT_META_ADS_TABLE_ID"]>
       (<["pos" := Some "CLIENT_POS_TABLE_ID"]>
       (<["ghl" := Some "CLIENT_GHL_TABLE_ID"]> ∅)))));
     ENABLED_SOURCES := ["ghl"; "pos"; "meta_ads"; "meta_ads_summary";
                         "meta_ads_simplified"; "google_ads"];
     DISABLED_SOURCES := [] |}.

(** A client with a table id for a source it does not enable. *)
Definition UNLISTED_CLIENT : ClientConfig :=
  {| CLIENT_NAME := "Cellular Zone";
     BUSINESS_NAME := "Cellular Zone";
     AIRTABLE_BASE_ID := "app9JgRBZC2GNlaKM";
     TABLE_IDS := <["pos" := Some "tblPosTable"]> ∅;
     ENABLED_SOURCES := [];
     DISABLED_SOURCES := [] |}.

(** A table id that passes the three comparisons of [is_enabled]. *)
Definition valid_id (x : option string) : Prop :=
  x ≠ None ∧ x ≠ Some "" ∧ x ≠ Some "null".

(** The keys of every per-table display, in the order they are written. *)
Definition ENTRY_KEYS : list string :=
  ["id"; "name"; "date_field"; "sort_direction"].

(** "Spaces replaced by underscores" in the words of the specification,
    character by character. *)
Fixpoint underscore_spaces (s : string) : string :=
  match s with
  | EmptyString => EmptyString
  | String c s' =>
      String (if Ascii.eqb c " " then "_"%char else c) (underscore_spaces s')
  end.

(** Every entry of a mapping is a display with the four keys. *)
Definition shaped (entries : list (string * TableConfig)) : Prop :=
  Forall (fun kv => keys kv.2 = ENTRY_KEYS) entries.

(** No entry of a mapping has [x] as its [id]. *)
Definition no_match (x : value) (entries : list (string * TableConfig)) : Prop :=
  Forall (fun kv => subscript kv.2 "id" ≠ Ok x) entries.

(** The module-level functions of [server-config.py], kept for older
    callers; each one forwards to the class. *)
Module server_config.

Definition get_client_config (str_lower : string -> string)
    (cls : ClientConfig) : FrontendConfig :=
  get_client_config_for_frontend str_lower cls.

Definition get_base_id (cls : ClientConfig) : string :=
  get_base_id cls.

Definition get_fresh_tables (cls : ClientConfig) : result (odict TableConfig) :=
  get_fresh_tables cls.

End server_config.

(** Character classes of ASCII text. *)
Definition is_upper (c : ascii) : bool :=
  let n := N_of_ascii c in ((65 <=? n) && (n <=? 90))%N.

Definition is_letter (c : ascii) : bool :=
  let n := N_of_ascii c in
  (((65 <=? n) && (n <=? 90)) || ((97 <=? n) && (n <=? 122)))%N.

Definition chars (s : string) : list ascii := String.list_ascii_of_string s.

(** ASCII text, and what is known of [str.lower] without its tables: on
    ASCII text it is [lower]. *)
Definition is_ascii (c : ascii) : bool := (N_of_ascii c <? 128)%N.

Definition ascii_text (s : string) : bool := forallb is_ascii (chars s).

Definition lowers_ascii (str_lower : string -> string) : Prop :=
  ∀ s, ascii_text s = true → str_lower s = lower s.

(** The configured client with only its first source enabled. *)
Definition GHL_ONLY_CLIENT : ClientConfig :=
  {| CLIENT_NAME := "Cellular Zone";
     BUSINESS_NAME := "Cellular Zone";
     AIRTABLE_BASE_ID := "app9JgRBZC2GNlaKM";
     TABLE_IDS := TABLE_IDS Cellular_Zone;
     ENABLED_SOURCES := ["ghl"];
     DISABLED_SOURCES := [] |}.

(** What [get_client_config_for_frontend] does to one character of an
    ASCII client name. *)
Definition slug_char (c : ascii) : ascii :=
  if Ascii.eqb (lower_char c) " " then "_"%char else lower_char c.

(** A dictionary value that is a usable table id. *)
Definition valid_value (v : value) : Prop :=
  ∃ t, v = PyStr t ∧ t ≠ "" ∧ t ≠ "null".

(** Every entry of a mapping has a usable table id as its [id]. *)
Definition valid_ids (entries : list (string * TableConfig)) : Prop :=
  Forall (fun kv => ∃ v, subscript kv.2 "id" = Ok v ∧ valid_value v) entries.

(** The [id]s of the enabled source keys, in the order of the blocks of
    [get_fresh_tables]. *)
Definition enabled_ids (cls : ClientConfig) : list value :=
  map (fun k => to_value (get_table_id cls k))
      (filter (fun k => is_enabled cls k = true) SOURCE_KEYS).

(** The configured client written differently: another business name and
    base id, the enabled sources in another order and repeated, a disabled
    list, and a table id under a key that is not a source key. *)
Definition Cellular_Zone_reordered : ClientConfig :=
  {| CLIENT_NAME := "Cellular Zone";
     BUSINESS_NAME := "Cellular Zone LLC";
     AIRTABLE_BASE_ID := "appOtherBase";
     TABLE_IDS :=
       <["tiktok" := Some "tblTikTok"]>
       (<["google_ads" := Some "tblIhvVihVoghHfVa"]>
       (<["ghl" := Some "tbl0Er1mMwZO1Pvfj"]> ∅));
     ENABLED_SOURCES := ["google_ads"; "ghl"; "google_ads"];
     DISABLED_SOURCES := ["ghl"] |}.

(** A client that lists a source for which it has no table. *)
Definition TABLELESS_CLIENT : ClientConfig :=
  {| CLIENT_NAME := "Cellular Zone";
     BUSINESS_NAME := "Cellular Zone";
     AIRTABLE_BASE_ID := "app9JgRBZC2GNlaKM";
     TABLE_IDS := <["pos" := None]> ∅;
     ENABLED_SOURCES := ["pos"];
     DISABLED_SOURCES := [] |}.

(** A client whose two enabled sources share one table id. *)
Definition SHARED_ID_CLIENT : ClientConfig :=
  {| CLIENT_NAME := "Cellular Zone";
     BUSINESS_NAME := "Cellular Zone";
     AIRTABLE_BASE_ID := "app9JgRBZC2GNlaKM";
     TABLE_IDS :=
       <["google_ads" := Some "tblShared"]> (<["pos" := Some "tblShared"]> ∅);
     ENABLED_SOURCES := ["google_ads"; "pos"];
     DISABLED_SOURCES := [] |}.

(** ** Properties of the runtime model *)

(** Closed decidable goals, settled by evaluation. *)
Ltac by_compute := apply (bool_decide_unpack _); vm_compute; exact I.

Section runtime_facts.

Lemma contains_elem_of (l : list string) (x : string) :
  contains l x = true ↔ x ∈ l.
Proof.
  unfold contains. rewrite existsb_exists. split.
  - intros (y & Hy & Heq). apply String.eqb_eq in Heq. subst.
    by apply list_elem_of_In.
  - intros Hx. exists x. split; [by apply list_elem_of_In | apply String.eqb_refl].
Qed.

Lemma py_ne_true (x y : option string) : py_ne x y = true ↔ x ≠ y.
Proof. unfold py_ne. rewrite negb_true_iff, bool_decide_eq_false. done. Qed.

Lemma is_not_none_true (x : option string) :
  is_not_none x = true ↔ x ≠ None.
Proof. destruct x; simpl; split; congruence. Qed.

Lemma truthy_true (x : option string) :
  truthy x = true ↔ x ≠ None ∧ x ≠ Some "".
Proof.
  destruct x as [s|]; simpl.
  - rewrite negb_true_iff, bool_decide_eq_false. split.
    + intros Hs. split; congruence.
    + intros [_ Hs] ->. by apply Hs.
  - split; [done | intros [H _]; by destruct H].
Qed.

Lemma map_get_Some (m : gmap string (option string)) (k t : string) :
  map_get m k = Some t ↔ m !! k = Some (Some t).
Proof.
  unfold map_get. destruct (m !! k) as [[u|]|]; split; congruence.
Qed.

Lemma map_subscript_get (m : gmap string (option string)) (k : string) :
  map_get m k ≠ None → map_subscript m k = Ok (map_get m k).
Proof.
  unfold map_get, map_subscript. destruct (m !! k); [done | congruence].
Qed.

Lemma dict_get_None {A} (d : odict A) (k : string) :
  dict_get d k = None ↔ k ∉ keys d.
Proof.
  induction d as [|[k' v] d IH]; simpl.
  - split; [intros _; apply not_elem_of_nil | done].
  - rewrite not_elem_of_cons. destruct (String.eqb k' k) eqn:E.
    + apply String.eqb_eq in E. split; [done | intros [H _]; congruence].
    + apply String.eqb_neq in E. rewrite IH. split; [intros; split; congruence | tauto].
Qed.

Lemma dict_get_elem_of {A} (d : odict A) (k : string) (v : A) :
  dict_get d k = Some v → (k, v) ∈ d.
Proof.
  induction d as [|[k' v'] d IH]; simpl; [done|].
  destruct (String.eqb k' k) eqn:E.
  - apply String.eqb_eq in E. intros [= ->]. subst. apply list_elem_of_here.
  - intros H. apply list_elem_of_further. by apply IH.
Qed.

Lemma dict_get_unique {A} (d : odict A) (k : string) (v : A) :
  NoDup (keys d) → (k, v) ∈ d → dict_get d k = Some v.
Proof.
  induction d as [|[k' v'] d IH]; simpl.
  - intros _ H. by apply elem_of_nil in H.
  - intros Hnd Hin. apply NoDup_cons in Hnd as [Hk Hnd].
    apply elem_of_cons in Hin as [[= -> ->]|Hin].
    + by rewrite String.eqb_refl.
    + destruct (String.eqb k' k) eqn:E; [|by apply IH].
      apply String.eqb_eq in E. subst. destruct Hk.
      apply list_elem_of_fmap. by exists (k, v).
Qed.

Lemma dict_get_set_eq {A} (d : odict A) (k : string) (v : A) :
  dict_get (dict_set d k v) k = Some v.
Proof.
  induction d as [|[k' v'] d IH]; simpl.
  - by rewrite String.eqb_refl.
  - destruct (String.eqb k' k) eqn:E; simpl; by rewrite E.
Qed.

Lemma dict_get_set_ne {A} (d : odict A) (k k' : string) (v : A) :
  k ≠ k' → dict_get (dict_set d k v) k' = dict_get d k'.
Proof.
  intros Hne. induction d as [|[k0 v0] d IH]; simpl.
  - apply String.eqb_neq in Hne. by rewrite Hne.
  - destruct (String.eqb k0 k) eqn:E; simpl.
    + apply String.eqb_eq in E. subst.
      apply String.eqb_neq in Hne. by rewrite Hne.
    + by rewrite IH.
Qed.

Lemma dict_set_fresh {A} (d : odict A) (k : string) (v : A) :
  k ∉ keys d → dict_set d k v = d ++ [(k, v)].
Proof.
  induction d as [|[k' v'] d IH]; simpl; [done|].
  rewrite not_elem_of_cons. intros [Hne Hk].
  assert (String.eqb k' k = false) as -> by (apply String.eqb_neq; congruence).
  by rewrite IH.
Qed.

Lemma display_snoc {A} (l : list (string * A)) (k : string) (v : A) :
  display (l ++ [(k, v)]) = dict_set (display l) k v.
Proof. unfold display. by rewrite fold_left_app. Qed.

(** A list of bindings with distinct keys is its own display. *)
Lemma display_NoDup {A} (l : list (string * A)) :
  NoDup (keys l) → display l = l.
Proof.
  induction l as [|[k v] l IH] using rev_ind; [done|].
  unfold keys. rewrite map_app. simpl. intros Hnd.
  apply NoDup_app in Hnd as (Hl & Hk & _).
  rewrite display_snoc, IH by done.
  apply dict_set_fresh. intros Hin. apply (Hk k Hin), list_elem_of_here.
Qed.

End runtime_facts.

(** ** [ClientConfig.is_enabled] and [ClientConfig.get_table_id] *)

Section enablement.

Variable cls : ClientConfig.

Lemma is_enabled_valid (s : string) :
  is_enabled cls s = true ↔
  s ∈ ENABLED_SOURCES cls ∧ valid_id (map_get (TABLE_IDS cls) s).
Proof.
  unfold is_enabled, valid_id.
  rewrite !andb_true_iff, contains_elem_of, is_not_none_true, !py_ne_true.
  tauto.
Qed.

Lemma valid_id_lookup (s : string) :
  valid_id (map_get (TABLE_IDS cls) s) ↔
  ∃ t, TABLE_IDS cls !! s = Some (Some t) ∧ t ≠ "" ∧ t ≠ "null".
Proof.
  unfold valid_id. split.
  - intros (Hn & He & Hl).
    destruct (map_get (TABLE_IDS cls) s) as [t|] eqn:Hg; [|done].
    exists t. apply map_get_Some in Hg. split; [done|]. split; congruence.
  - intros (t & Ht & He & Hl). apply map_get_Some in Ht. rewrite Ht.
    split; [done|]. split; congruence.
Qed.

Lemma get_table_id_valid (s : string) :
  valid_id (map_get (TABLE_IDS cls) s) →
  get_table_id cls s = map_get (TABLE_IDS cls) s.
Proof.
  intros (Hn & He & Hl). unfold get_table_id. cbv zeta.
  assert (truthy (map_get (TABLE_IDS cls) s) = true) as -> by by apply truthy_true.
  assert (py_ne (map_get (TABLE_IDS cls) s) (Some "null") = true) as -> by by apply py_ne_true.
  assert (py_ne (map_get (TABLE_IDS cls) s) (Some "") = true) as -> by by apply py_ne_true.
  done.
Qed.

Lemma get_table_id_invalid (s : string) :
  ¬ valid_id (map_get (TABLE_IDS cls) s) → get_table_id cls s = None.
Proof.
  intros Hv. unfold get_table_id. cbv zeta.
  destruct (truthy _ && py_ne _ _ && py_ne _ _) eqn:Hc; [|done].
  destruct Hv. rewrite !andb_true_iff, truthy_true, !py_ne_true in Hc.
  unfold valid_id. tauto.
Qed.

End enablement.

(** C1: [is_enabled(s)] is true exactly when [s] is listed in
    [ENABLED_SOURCES] and [TABLE_IDS] binds [s] to a table id that is
    present (the key exists and its value is not [None]), is not the empty
    string and is not the string ["null"]. *)
Theorem is_enabled_iff (cls : ClientConfig) (s : string) :
  is_enabled cls s = true ↔
  s ∈ ENABLED_SOURCES cls ∧
  ∃ t, TABLE_IDS cls !! s = Some (Some t) ∧ t ≠ "" ∧ t ≠ "null".
Proof. by rewrite is_enabled_valid, valid_id_lookup. Qed.

Lemma is_enabled_iff_witness :
  is_enabled Cellular_Zone "ghl" = true ∧
  is_enabled Cellular_Zone "pos" = false ∧
  is_enabled UNLISTED_CLIENT "pos" = false.
Proof.
  split.
  - apply (is_enabled_iff Cellular_Zone "ghl"). split.
    + apply contains_elem_of. reflexivity.
    + exists "tbl0Er1mMwZO1Pvfj". split; [reflexivity | split; discriminate].
  - split; reflexivity.
Defined.

(** C8: [get_table_id(s)] returns the configured table id, except that a
    missing key, [None], the empty string and ["null"] all give [None].
    The answer depends on [TABLE_IDS] alone, not on [ENABLED_SOURCES]:
    whenever [is_enabled(s)] holds an id is returned, and an id can be
    returned for a source that is not enabled. *)
Theorem get_table_id_spec (cls : ClientConfig) (s : string) :
  (∀ t, TABLE_IDS cls !! s = Some (Some t) → t ≠ "" → t ≠ "null" →
        get_table_id cls s = Some t) ∧
  (TABLE_IDS cls !! s = None ∨ TABLE_IDS cls !! s = Some None ∨
   TABLE_IDS cls !! s = Some (Some "") ∨ TABLE_IDS cls !! s = Some (Some "null") →
   get_table_id cls s = None) ∧
  (∀ cls', TABLE_IDS cls' = TABLE_IDS cls →
           get_table_id cls' s = get_table_id cls s) ∧
  (is_enabled cls s = true → get_table_id cls s ≠ None) ∧
  (∃ cls' s', get_table_id cls' s' ≠ None ∧ is_enabled cls' s' = false).
Proof.
  repeat split.
  - intros t Ht He Hl. rewrite get_table_id_valid.
    + by apply map_get_Some.
    + apply valid_id_lookup. eauto.
  - intros H. apply get_table_id_invalid. rewrite valid_id_lookup.
    intros (t & Ht & He & Hl).
    destruct H as [H|[H|[H|H]]]; rewrite H in Ht; congruence.
  - intros cls' Heq. unfold get_table_id. by rewrite Heq.
  - intros Hen. apply is_enabled_valid in Hen as [_ Hv].
    rewrite get_table_id_valid by done. apply Hv.
  - exists UNLISTED_CLIENT, "pos". split; [discriminate | reflexivity].
Qed.

Lemma get_table_id_spec_witness :
  get_table_id Cellular_Zone "ghl" = Some "tbl0Er1mMwZO1Pvfj" ∧
  get_table_id Cellular_Zone "pos" = None.
Proof.
  destruct (get_table_id_spec Cellular_Zone "ghl") as (Hid & _).
  destruct (get_table_id_spec Cellular_Zone "pos") as (_ & Hnone & _).
  split.
  - apply Hid; [reflexivity | discriminate | discriminate].
  - apply Hnone. right. left. reflexivity.
Defined.

(** ** [ClientConfig.get_fresh_tables] *)

Section derived_mapping.

Variable cls : ClientConfig.

(** A block of [get_fresh_tables] never raises: the subscript is only
    evaluated when [is_enabled] has seen the key. *)
Lemma add_source_ok (d : odict TableConfig) (key suffix date_field : string) :
  add_source cls d key suffix date_field =
  Ok (if is_enabled cls key
      then dict_set d key
             (fresh_entry cls (map_get (TABLE_IDS cls) key) suffix date_field)
      else d).
Proof.
  unfold add_source. destruct (is_enabled cls key) eqn:E; [|done].
  apply is_enabled_valid in E as [_ (Hn & _)].
  by rewrite map_subscript_get.
Qed.

Lemma keys_derived_from (table : list (string * (string * string))) :
  keys (derived_from cls table) =
  filter (fun k => is_enabled cls k = true) (map fst table).
Proof.
  unfold keys, derived_from. induction table as [|m table IH]; [done|].
  cbn [map]. rewrite !filter_cons. cbn [fst].
  destruct (decide (is_enabled cls m.1 = true)); cbn [map fst]; by rewrite IH.
Qed.

(** A block for a key not met before appends one row of the table. *)
Lemma add_source_derived (table : list (string * (string * string)))
    (key suffix date_field : string) :
  key ∉ map fst table →
  add_source cls (derived_from cls table) key suffix date_field =
  Ok (derived_from cls (table ++ [(key, (suffix, date_field))])).
Proof.
  intros Hk. rewrite add_source_ok. f_equal.
  unfold derived_from at 3. rewrite filter_app, map_app, filter_cons, filter_nil.
  cbn [fst snd]. fold (derived_from cls table).
  destruct (is_enabled cls key) eqn:E.
  - rewrite decide_True by done. apply dict_set_fresh.
    rewrite keys_derived_from, list_elem_of_filter. tauto.
  - rewrite decide_False by congruence. cbn [map]. by rewrite app_nil_r.
Qed.

(** The seven blocks compute the mapping the specification describes. *)
Lemma get_fresh_tables_derived :
  get_fresh_tables cls = Ok (derived_fresh_tables cls).
Proof.
  unfold get_fresh_tables. cbv zeta.
  change (add_source cls []) with (add_source cls (derived_from cls [])).
  repeat (rewrite add_source_derived by (by_compute);
          cbn [mbind result_bind app]).
  reflexivity.
Qed.

Lemma fresh_entry_items (id : option string) (suffix date_field : string) :
  fresh_entry cls id suffix date_field =
  [("id", to_value id);
   ("name", PyStr (CLIENT_NAME cls +:+ " " +:+ suffix));
   ("date_field", PyStr date_field);
   ("sort_direction", PyStr "desc")].
Proof. reflexivity. Qed.

Lemma derived_elem (k : string) (config : TableConfig) :
  (k, config) ∈ derived_fresh_tables cls ↔
  is_enabled cls k = true ∧
  ∃ suffix date_field,
    (k, (suffix, date_field)) ∈ SOURCE_METADATA ∧
    config = fresh_entry cls (map_get (TABLE_IDS cls) k) suffix date_field.
Proof.
  unfold derived_fresh_tables, derived_from. rewrite list_elem_of_fmap. split.
  - intros ([k' [suffix df]] & [= -> ->] & Hin).
    apply list_elem_of_filter in Hin as [Hen Hin]. eauto.
  - intros (Hen & suffix & df & Hin & ->).
    exists (k, (suffix, df)). split; [done|]. by apply list_elem_of_filter.
Qed.

Lemma SOURCE_KEYS_NoDup : NoDup SOURCE_KEYS.
Proof. by_compute. Qed.

Lemma derived_keys_NoDup : NoDup (keys (derived_fresh_tables cls)).
Proof.
  unfold derived_fresh_tables. rewrite keys_derived_from.
  apply NoDup_filter, SOURCE_KEYS_NoDup.
Qed.

Lemma derived_keys (k : string) :
  k ∈ keys (derived_fresh_tables cls) ↔
  is_enabled cls k = true ∧ k ∈ SOURCE_KEYS.
Proof.
  unfold derived_fresh_tables. by rewrite keys_derived_from, list_elem_of_filter.
Qed.

Lemma derived_entry (k suffix date_field : string) :
  (k, (suffix, date_field)) ∈ SOURCE_METADATA →
  is_enabled cls k = true →
  subscript (derived_fresh_tables cls) k =
  Ok (fresh_entry cls (map_get (TABLE_IDS cls) k) suffix date_field).
Proof.
  intros Hin Hen. unfold subscript.
  erewrite dict_get_unique; [done | apply derived_keys_NoDup |].
  apply derived_elem. eauto.
Qed.

End derived_mapping.

(** C2: [get_fresh_tables()] returns a mapping in which each of the seven
    keys of the table is present exactly when [is_enabled] holds for it; a
    present entry has the client name, a space and the key's suffix as
    [name], the configured table id as [id], the key's date field as
    [date_field] and ["desc"] as [sort_direction].  No other key occurs. *)
Theorem get_fresh_tables_spec (cls : ClientConfig) :
  ∃ fresh, get_fresh_tables cls = Ok fresh ∧
    (∀ s, s ∈ keys fresh → s ∈ SOURCE_KEYS) ∧
    ∀ s suffix date_field, (s, (suffix, date_field)) ∈ SOURCE_METADATA →
      (s ∈ keys fresh ↔ is_enabled cls s = true) ∧
      (s ∈ keys fresh →
       ∃ config t,
         subscript fresh s = Ok config ∧
         TABLE_IDS cls !! s = Some (Some t) ∧
         subscript config "id" = Ok (PyStr t) ∧
         subscript config "name" = Ok (PyStr (CLIENT_NAME cls +:+ " " +:+ suffix)) ∧
         subscript config "date_field" = Ok (PyStr date_field) ∧
         subscript config "sort_direction" = Ok (PyStr "desc")).
Proof.
  exists (derived_fresh_tables cls). split; [apply get_fresh_tables_derived|].
  split; [intros s Hs; by apply derived_keys in Hs as [_ Hs]|].
  intros s suffix df Hin.
  assert (s ∈ SOURCE_KEYS) as Hkey.
  { apply list_elem_of_fmap. by exists (s, (suffix, df)). }
  split; [rewrite derived_keys; tauto|].
  intros Hs. apply derived_keys in Hs as [Hen _].
  exists (fresh_entry cls (map_get (TABLE_IDS cls) s) suffix df).
  pose proof Hen as Hv.
  apply is_enabled_valid in Hv as [_ Hv]. apply valid_id_lookup in Hv as (t & Ht & _).
  exists t. split; [by apply derived_entry|]. split; [done|].
  apply map_get_Some in Ht. rewrite Ht, fresh_entry_items. done.
Qed.

Lemma get_fresh_tables_spec_witness :
  ∃ fresh, get_fresh_tables Cellular_Zone = Ok fresh ∧
    ("google_ads" ∈ keys fresh ↔ is_enabled Cellular_Zone "google_ads" = true).
Proof.
  destruct (get_fresh_tables_spec Cellular_Zone) as (fresh & Hfresh & _ & Hrows).
  exists fresh. split; [exact Hfresh|].
  apply (Hrows "google_ads" "Google Ads" "Date").
  by_compute.
Defined.

(** C10: when [is_enabled(s)] holds, [get_table_id(s)] is a string, not
    [None], and it is the configured table id, which is neither empty nor
    ["null"]; for each of the seven source keys it is also the [id] of
    [get_fresh_tables()[s]].  Conversely every entry of the derived mapping
    carries such an id. *)
Theorem enabled_table_id (cls : ClientConfig) :
  (∀ s, is_enabled cls s = true →
     ∃ t, get_table_id cls s = Some t ∧
          TABLE_IDS cls !! s = Some (Some t) ∧ t ≠ "" ∧ t ≠ "null" ∧
          (s ∈ SOURCE_KEYS →
           ∃ fresh config,
             get_fresh_tables cls = Ok fresh ∧
             subscript fresh s = Ok config ∧
             subscript config "id" = Ok (PyStr t))) ∧
  (∀ fresh s config, get_fresh_tables cls = Ok fresh → (s, config) ∈ fresh →
     ∃ t, subscript config "id" = Ok (PyStr t) ∧
          get_table_id cls s = Some t ∧ t ≠ "" ∧ t ≠ "null").
Proof.
  assert (∀ s, is_enabled cls s = true →
            ∃ t, map_get (TABLE_IDS cls) s = Some t ∧
                 get_table_id cls s = Some t ∧
                 TABLE_IDS cls !! s = Some (Some t) ∧ t ≠ "" ∧ t ≠ "null") as Hid.
  { intros s Hen. apply is_enabled_valid in Hen as [_ Hv].
    rewrite (get_table_id_valid cls s Hv).
    apply valid_id_lookup in Hv as (t & Ht & He & Hl).
    exists t. by rewrite (proj2 (map_get_Some _ _ _) Ht). }
  split.
  - intros s Hen. destruct (Hid s Hen) as (t & Hg & Hget & Ht & He & Hl).
    exists t. repeat (split; [done|]).
    intros Hkey. apply list_elem_of_fmap in Hkey as ([k [suffix df]] & -> & Hin).
    exists (derived_fresh_tables cls),
      (fresh_entry cls (map_get (TABLE_IDS cls) k) suffix df).
    split; [apply get_fresh_tables_derived|].
    split; [by apply derived_entry|].
    cbn [fst] in Hg. by rewrite Hg, fresh_entry_items.
  - intros fresh s config Hfresh Hin.
    rewrite get_fresh_tables_derived in Hfresh. injection Hfresh as <-.
    apply derived_elem in Hin as (Hen & suffix & df & _ & ->).
    destruct (Hid s Hen) as (t & Hg & Hget & _ & He & Hl).
    exists t. by rewrite Hg, fresh_entry_items.
Qed.

Lemma enabled_table_id_witness :
  ∃ t, get_table_id Cellular_Zone "ghl" = Some t ∧
       TABLE_IDS Cellular_Zone !! "ghl" = Some (Some t) ∧ t ≠ "" ∧ t ≠ "null" ∧
       ∃ fresh config,
         get_fresh_tables Cellular_Zone = Ok fresh ∧
         subscript fresh "ghl" = Ok config ∧
         subscript config "id" = Ok (PyStr t).
Proof.
  destruct (enabled_table_id Cellular_Zone) as [Hid _].
  destruct (Hid "ghl") as (t & Hget & Ht & He & Hl & Hfresh); [reflexivity|].
  exists t. repeat (split; [assumption|]).
  apply Hfresh. by_compute.
Defined.

(** ** The body of [Config] and the profiles *)

Section class_facts.

Variable fresh : odict TableConfig.

(** [FRESH_TABLES] and [LEGACY_TABLES] are assigned by [Config] only, so
    every profile sees the values of [Config]. *)
Lemma getattr_FRESH_TABLES (cls : class) :
  getattr fresh cls FRESH_TABLES "FRESH_TABLES" = Ok fresh.
Proof. by destruct cls. Qed.

Lemma getattr_LEGACY_TABLES (cls : class) :
  getattr fresh cls LEGACY_TABLES "LEGACY_TABLES" = Ok [].
Proof. by destruct cls. Qed.

End class_facts.

Lemma placeholder_shape :
  shaped PLACEHOLDER_TABLES.
Proof. repeat constructor. Qed.

Lemma derived_shape (cls : ClientConfig) :
  shaped (derived_fresh_tables cls).
Proof.
  apply Forall_forall. intros [k config] Hin.
  by apply derived_elem in Hin as (_ & suffix & df & _ & ->).
Qed.

(** Whatever the import did, a [FRESH_TABLES] that was assigned holds
    displays with the four keys, under distinct source keys. *)
Lemma loaded_shape (server_config : result ClientConfig)
    (fresh : odict TableConfig) :
  load_FRESH_TABLES server_config = Ok fresh →
  NoDup (keys fresh) ∧ shaped fresh.
Proof.
  unfold load_FRESH_TABLES.
  destruct server_config as [client|e]; cbn [mbind result_bind].
  - rewrite get_fresh_tables_derived. intros [= <-].
    split; [apply derived_keys_NoDup | apply derived_shape].
  - destruct e; try done. intros [= <-].
    split; [by_compute | apply placeholder_shape].
Qed.




(** ** [get_config] *)

Lemma os_getenv_default (environ : gmap string string) (key d : string) :
  os_getenv environ key d = default d (environ !! key).
Proof. unfold os_getenv. by destruct (environ !! key). Qed.

Lemma lower_char_idemp (c : ascii) : lower_char (lower_char c) = lower_char c.
Proof. destruct c as [[] [] [] [] [] [] [] []]; reflexivity. Qed.

Lemma lower_idemp (s : string) : lower (lower s) = lower s.
Proof.
  induction s as [|c s IH]; [done|].
  cbn [lower]. by rewrite lower_char_idemp, IH.
Qed.

Lemma get_config_unfold (environ : gmap string string) :
  get_config environ =
  let env := lower (default "production" (environ !! "FLASK_ENV")) in
  if bool_decide (env = "development") then DevelopmentConfig
  else if bool_decide (env = "testing") then TestConfig
  else ProductionConfig.
Proof. unfold get_config. by rewrite os_getenv_default. Qed.

(** C4: [get_config] is a total function of the value of [FLASK_ENV]
    alone.  With the value lowercased, and ["production"] taken for an
    unset variable, ["development"] selects [DevelopmentConfig],
    ["testing"] selects [TestConfig] and every other value selects
    [ProductionConfig]; values with the same lower-case form, such as a
    value and its own lower-case form, select the same profile; an unset
    variable, ["production"] and ["PRODUCTION"] all
    select [ProductionConfig]. *)
Theorem get_config_spec (environ : gmap string string) :
  let env := lower (default "production" (environ !! "FLASK_ENV")) in
  (env = "development" → get_config environ = DevelopmentConfig) ∧
  (env = "testing" → get_config environ = TestConfig) ∧
  (env ≠ "development" → env ≠ "testing" →
   get_config environ = ProductionConfig) ∧
  (∀ environ', environ' !! "FLASK_ENV" = environ !! "FLASK_ENV" →
               get_config environ' = get_config environ) ∧
  (∀ v v', lower v = lower v' →
           get_config (<["FLASK_ENV" := v]> environ) =
           get_config (<["FLASK_ENV" := v']> environ)) ∧
  (∀ v, get_config (<["FLASK_ENV" := lower v]> environ) =
        get_config (<["FLASK_ENV" := v]> environ)) ∧
  get_config (delete "FLASK_ENV" environ) = ProductionConfig ∧
  get_config (<["FLASK_ENV" := "production"]> environ) = ProductionConfig ∧
  get_config (<["FLASK_ENV" := "PRODUCTION"]> environ) = ProductionConfig.
Proof.
  intros env. subst env. repeat split.
  - intros He. rewrite get_config_unfold. cbv zeta. by rewrite He.
  - intros He. rewrite get_config_unfold. cbv zeta. by rewrite He.
  - intros Hd Ht. rewrite get_config_unfold. cbv zeta.
    by rewrite (bool_decide_eq_false_2 _ Hd), (bool_decide_eq_false_2 _ Ht).
  - intros environ' Heq. by rewrite !get_config_unfold, Heq.
  - intros v v' Heq. rewrite !get_config_unfold, !lookup_insert_eq.
    simpl. by rewrite Heq.
  - intros v. rewrite !get_config_unfold, !lookup_insert_eq.
    simpl. by rewrite lower_idemp.
  - by rewrite get_config_unfold, lookup_delete_eq.
  - by rewrite get_config_unfold, lookup_insert_eq.
  - by rewrite get_config_unfold, lookup_insert_eq.
Qed.

Lemma get_config_spec_witness :
  get_config (<["FLASK_ENV" := "Development"]> ∅) = DevelopmentConfig ∧
  get_config (<["FLASK_ENV" := "TESTING"]> ∅) = TestConfig ∧
  get_config (<["FLASK_ENV" := "staging"]> ∅) = ProductionConfig.
Proof.
  destruct (get_config_spec (<["FLASK_ENV" := "Development"]> ∅)) as (Hdev & _).
  destruct (get_config_spec (<["FLASK_ENV" := "TESTING"]> ∅)) as (_ & Htest & _).
  destruct (get_config_spec (<["FLASK_ENV" := "staging"]> ∅))
    as (_ & _ & Hprod & _).
  split; [|split].
  - apply Hdev. vm_compute. reflexivity.
  - apply Htest. vm_compute. reflexivity.
  - apply Hprod; vm_compute; discriminate.
Defined.

(** C5: the attribute values each profile resolves to.  [Config]: log
    level [INFO], 10000 total records, 50 pages, three origins.
    [DevelopmentConfig]: debug on, log level [DEBUG], both limits those of
    [Config].  [ProductionConfig]: debug off, log level [INFO], 5000 total
    records, two origins.  [TestConfig]: debug on, log level [WARNING],
    100 total records, 5 pages.  Hence the profiles selected for
    ["development"] and ["production"] disagree on the total. *)
Theorem profile_overrides (fresh : odict TableConfig) :
  (getattr fresh Config LOG_LEVEL "LOG_LEVEL" = Ok "INFO" ∧
   getattr fresh Config MAX_TOTAL_RECORDS "MAX_TOTAL_RECORDS" = Ok 10000 ∧
   getattr fresh Config MAX_PAGINATION_PAGES "MAX_PAGINATION_PAGES" = Ok 50 ∧
   ∃ origins, getattr fresh Config CORS_ORIGINS "CORS_ORIGINS" = Ok origins ∧
              length origins = 3%nat) ∧
  (getattr fresh DevelopmentConfig DEBUG "DEBUG" = Ok true ∧
   getattr fresh DevelopmentConfig LOG_LEVEL "LOG_LEVEL" = Ok "DEBUG" ∧
   MAX_TOTAL_RECORDS (body fresh DevelopmentConfig) = None ∧
   MAX_PAGINATION_PAGES (body fresh DevelopmentConfig) = None ∧
   getattr fresh DevelopmentConfig MAX_TOTAL_RECORDS "MAX_TOTAL_RECORDS" = Ok 10000 ∧
   getattr fresh DevelopmentConfig MAX_PAGINATION_PAGES "MAX_PAGINATION_PAGES" = Ok 50) ∧
  (getattr fresh ProductionConfig DEBUG "DEBUG" = Ok false ∧
   getattr fresh ProductionConfig LOG_LEVEL "LOG_LEVEL" = Ok "INFO" ∧
   getattr fresh ProductionConfig MAX_TOTAL_RECORDS "MAX_TOTAL_RECORDS" = Ok 5000 ∧
   ∃ origins, getattr fresh ProductionConfig CORS_ORIGINS "CORS_ORIGINS" = Ok origins ∧
              length origins = 2%nat) ∧
  (getattr fresh TestConfig DEBUG "DEBUG" = Ok true ∧
   getattr fresh TestConfig LOG_LEVEL "LOG_LEVEL" = Ok "WARNING" ∧
   getattr fresh TestConfig MAX_TOTAL_RECORDS "MAX_TOTAL_RECORDS" = Ok 100 ∧
   getattr fresh TestConfig MAX_PAGINATION_PAGES "MAX_PAGINATION_PAGES" = Ok 5) ∧
  getattr fresh (get_config (<["FLASK_ENV" := "development"]> ∅))
          MAX_TOTAL_RECORDS "MAX_TOTAL_RECORDS" ≠
  getattr fresh (get_config (<["FLASK_ENV" := "production"]> ∅))
          MAX_TOTAL_RECORDS "MAX_TOTAL_RECORDS".
Proof.
  repeat split; try reflexivity; try discriminate.
  - by eexists.
  - by eexists.
Qed.

(** ** [Config.get_table_config] and [Config.get_all_table_ids] *)

Section table_lookup.

Lemma with_type_items (config : TableConfig) (table_type : string) :
  keys config = ENTRY_KEYS →
  with_type config table_type =
  config ++ [("type", PyStr table_type); ("is_legacy", PyBool false)].
Proof.
  intros Hk. unfold with_type, items. apply display_NoDup.
  unfold keys in *. rewrite map_app, Hk. by_compute.
Qed.

Lemma subscript_id (config : TableConfig) :
  keys config = ENTRY_KEYS → ∃ id, subscript config "id" = Ok id.
Proof.
  intros Hk. unfold subscript. destruct (dict_get config "id") as [id|] eqn:E.
  - by exists id.
  - apply dict_get_None in E. destruct E. rewrite Hk. by_compute.
Qed.

(** The loop stops at the first entry whose [id] is [x]. *)
Lemma find_table_first (entries : list (string * TableConfig)) (x : value) :
  shaped entries →
  (find_table entries x = Ok None ∧ no_match x entries) ∨
  (∃ pre table_type config post,
     entries = pre ++ (table_type, config) :: post ∧
     no_match x pre ∧
     subscript config "id" = Ok x ∧
     find_table entries x = Ok (Some (with_type config table_type))).
Proof.
  unfold shaped.
  induction entries as [|[k config] entries IH]; intros Hs.
  - left. split; [done | apply Forall_nil; done].
  - apply Forall_cons in Hs as [Hk Hs]. cbn [snd] in Hk.
    destruct (subscript_id config Hk) as [id Hid].
    cbn [find_table]. rewrite Hid. cbn [mbind result_bind].
    unfold py_eq. destruct (decide (id = x)) as [->|Hne].
    + rewrite bool_decide_eq_true_2 by done. right.
      exists [], k, config, entries. repeat split; try done. apply Forall_nil. done.
    + rewrite bool_decide_eq_false_2 by done.
      assert (subscript config "id" ≠ Ok x) as Hno by (rewrite Hid; congruence).
      destruct (IH Hs) as [[Hnone Hall]|(pre & k' & c' & post & -> & Hpre & Hc & Hfind)].
      * left. split; [done|]. by apply Forall_cons.
      * right. exists ((k, config) :: pre), k', c', post.
        repeat split; try done. by apply Forall_cons.
Qed.

Lemma ids_of_all (configs : list TableConfig) :
  Forall (fun config => keys config = ENTRY_KEYS) configs →
  ∃ ids, ids_of configs = Ok ids ∧
         Forall2 (fun id config => subscript config "id" = Ok id) ids configs.
Proof.
  induction configs as [|config configs IH]; intros Hs.
  - exists []. split; [done | constructor].
  - apply Forall_cons in Hs as [Hk Hs].
    destruct (subscript_id config Hk) as [id Hid].
    destruct (IH Hs) as (ids & Hids & Hall).
    exists (id :: ids). cbn [ids_of]. rewrite Hid. cbn [mbind result_bind].
    rewrite Hids. split; [done | by constructor].
Qed.

End table_lookup.

(** C6: on the mapping [Config] was given, [get_table_config(x)] is
    [None] when no entry has [x] as its [id]; otherwise it is the first
    entry with that [id], with ['type'] bound to the entry's source key and
    ['is_legacy'] bound to [False] after its own fields, and when only one
    source key has that [id] this is that key's entry.  It behaves alike
    on every profile, and [LEGACY_TABLES] is empty. *)
Theorem get_table_config_spec (server_config : result ClientConfig)
    (fresh : odict TableConfig) (cls : class) (x : value) :
  load_FRESH_TABLES server_config = Ok fresh →
  (no_match x fresh → get_table_config fresh cls x = Ok None) ∧
  (¬ no_match x fresh →
   ∃ pre table_type config post,
     fresh = pre ++ (table_type, config) :: post ∧
     no_match x pre ∧
     subscript config "id" = Ok x ∧
     get_table_config fresh cls x =
       Ok (Some (config ++
                 [("type", PyStr table_type); ("is_legacy", PyBool false)]))) ∧
  (∀ table_type config,
     (table_type, config) ∈ fresh → subscript config "id" = Ok x →
     (∀ k c, (k, c) ∈ fresh → subscript c "id" = Ok x → k = table_type) →
     get_table_config fresh cls x =
       Ok (Some (config ++
                 [("type", PyStr table_type); ("is_legacy", PyBool false)]))) ∧
  getattr fresh cls LEGACY_TABLES "LEGACY_TABLES" = Ok [].
Proof.
  intros Hload. apply loaded_shape in Hload as [Hnd Hs].
  assert (get_table_config fresh cls x = find_table fresh x) as Hget.
  { unfold get_table_config. by rewrite getattr_FRESH_TABLES. }
  assert (∀ pre k c post, fresh = pre ++ (k, c) :: post →
            with_type c k = c ++ [("type", PyStr k); ("is_legacy", PyBool false)])
    as Hwt.
  { intros pre k c post ->. apply with_type_items.
    apply Forall_app in Hs as [_ Hs]. by apply Forall_cons in Hs as [Hk _]. }
  rewrite Hget.
  destruct (find_table_first fresh x Hs)
    as [[Hnone Hall]|(pre & k & c & post & Hfresh & Hpre & Hc & Hfind)].
  - repeat split; [done | done | | apply getattr_LEGACY_TABLES].
    intros k c Hin Hid _. unfold no_match in Hall.
    rewrite Forall_forall in Hall. by destruct (Hall _ Hin).
  - rewrite Hfind, (Hwt _ _ _ _ Hfresh).
    assert ((k, c) ∈ fresh) as Hin.
    { rewrite Hfresh. apply elem_of_app. right. apply list_elem_of_here. }
    repeat split; [| | | apply getattr_LEGACY_TABLES].
    + intros Hall. unfold no_match in Hall. rewrite Forall_forall in Hall.
      by destruct (Hall _ Hin).
    + intros _. by exists pre, k, c, post.
    + intros k' c' Hin' Hid' Huniq. pose proof (Huniq k c Hin Hc) as ->.
      pose proof (dict_get_unique fresh _ _ Hnd Hin) as E1.
      pose proof (dict_get_unique fresh _ _ Hnd Hin') as E2.
      rewrite E1 in E2. by injection E2 as ->.
Qed.

Lemma get_table_config_spec_witness :
  get_table_config (derived_fresh_tables Cellular_Zone) TestConfig
    (PyStr "tblUnknown") = Ok None ∧
  get_table_config (derived_fresh_tables Cellular_Zone) TestConfig
    (PyStr "tblIhvVihVoghHfVa") =
  Ok (Some [("id", PyStr "tblIhvVihVoghHfVa");
            ("name", PyStr "Cellular Zone Google Ads");
            ("date_field", PyStr "Date");
            ("sort_direction", PyStr "desc");
            ("type", PyStr "google_ads");
            ("is_legacy", PyBool false)]).
Proof.
  assert (load_FRESH_TABLES (Ok Cellular_Zone)
          = Ok (derived_fresh_tables Cellular_Zone)) as Hload
    by (vm_compute; reflexivity).
  destruct (get_table_config_spec _ _ TestConfig (PyStr "tblUnknown") Hload)
    as (Hnone & _).
  destruct (get_table_config_spec _ _ TestConfig (PyStr "tblIhvVihVoghHfVa") Hload)
    as (_ & _ & Hsome & _).
  split.
  - apply Hnone. vm_compute. repeat constructor; discriminate.
  - apply (Hsome "google_ads"
             (fresh_entry Cellular_Zone (Some "tblIhvVihVoghHfVa") "Google Ads" "Date")).
    + vm_compute. apply list_elem_of_further, list_elem_of_here.
    + reflexivity.
    + intros k c Hin Hid. vm_compute in Hin.
      apply elem_of_cons in Hin as [[= -> ->]|Hin]; [discriminate Hid|].
      apply elem_of_cons in Hin as [[= -> ->]|Hin]; [reflexivity|].
      exfalso. exact (proj1 (elem_of_nil _) Hin).
Defined.

Lemma Cellular_Zone_table_ids (s : string) :
  map_get (TABLE_IDS Cellular_Zone) s =
  if bool_decide (s = "ghl") then Some "tbl0Er1mMwZO1Pvfj"
  else if bool_decide (s = "google_ads") then Some "tblIhvVihVoghHfVa"
  else None.
Proof.
  unfold map_get. cbn [TABLE_IDS Cellular_Zone].
  repeat case_bool_decide; subst; try reflexivity.
  rewrite !lookup_insert. repeat case_decide; try congruence; reflexivity.
Qed.

(** C7: [get_all_table_ids()] lists the [id] of every entry of the active
    mapping, one per entry and in the order of the mapping.  For the
    configured client, which enables [ghl] and [google_ads] and has a table
    id for these two keys only, the derived mapping has exactly the keys
    [ghl] and [google_ads], [is_enabled("pos")] is false and every profile
    answers [["tbl0Er1mMwZO1Pvfj", "tblIhvVihVoghHfVa"]]. *)
Theorem get_all_table_ids_spec :
  (∀ server_config fresh cls,
     load_FRESH_TABLES server_config = Ok fresh →
     ∃ ids, get_all_table_ids fresh cls = Ok ids ∧
            Forall2 (fun id kv => subscript kv.2 "id" = Ok id) ids fresh) ∧
  ENABLED_SOURCES Cellular_Zone = ["ghl"; "google_ads"] ∧
  (∀ s, map_get (TABLE_IDS Cellular_Zone) s =
        if bool_decide (s = "ghl") then Some "tbl0Er1mMwZO1Pvfj"
        else if bool_decide (s = "google_ads") then Some "tblIhvVihVoghHfVa"
        else None) ∧
  is_enabled Cellular_Zone "pos" = false ∧
  ∃ fresh,
    get_fresh_tables Cellular_Zone = Ok fresh ∧
    load_FRESH_TABLES (Ok Cellular_Zone) = Ok fresh ∧
    keys fresh = ["ghl"; "google_ads"] ∧
    ∀ cls, get_all_table_ids fresh cls =
           Ok [PyStr "tbl0Er1mMwZO1Pvfj"; PyStr "tblIhvVihVoghHfVa"].
Proof.
  split.
  { intros server_config fresh cls Hload.
    apply loaded_shape in Hload as [_ Hs].
    destruct (ids_of_all (values fresh)) as (ids & Hids & Hall).
    { unfold values. by apply Forall_fmap. }
    exists ids. unfold get_all_table_ids.
    rewrite getattr_FRESH_TABLES. cbn [mbind result_bind]. rewrite Hids.
    split; [done|]. unfold values in Hall. by apply Forall2_fmap_r in Hall. }
  split; [reflexivity|]. split; [apply Cellular_Zone_table_ids|].
  split; [reflexivity|].
  exists (derived_fresh_tables Cellular_Zone).
  split; [apply get_fresh_tables_derived|].
  split; [unfold load_FRESH_TABLES; cbn [mbind result_bind];
          by rewrite get_fresh_tables_derived|].
  split; [by vm_compute|].
  intros cls. unfold get_all_table_ids. rewrite getattr_FRESH_TABLES.
  by vm_compute.
Qed.

Lemma get_all_table_ids_spec_witness :
  ∃ ids, get_all_table_ids PLACEHOLDER_TABLES ProductionConfig = Ok ids ∧
         Forall2 (fun id (kv : string * TableConfig) => subscript kv.2 "id" = Ok id)
                 ids PLACEHOLDER_TABLES.
Proof.
  destruct get_all_table_ids_spec as [Hall _].
  apply (Hall (Raise ImportError)). reflexivity.
Defined.

(** ** [ClientConfig.get_client_config_for_frontend] *)

Lemma replace_space (s : string) : replace s " " "_" = underscore_spaces s.
Proof.
  unfold replace. induction s as [|c s IH]; [done|].
  cbn [replace_from underscore_spaces String.prefix String.length Nat.pred].
  destruct (ascii_dec " " c) as [<-|Hne].
  - rewrite IH. by destruct s.
  - rewrite IH. assert (Ascii.eqb c " " = false) as ->; [|done].
    apply Ascii.eqb_neq. congruence.
Qed.

(** C9: the record built for the frontend has as [client_id] the
    lower-cased client name with every space turned into an underscore,
    as [enabled_tabs] the list ["overview"] followed by [ENABLED_SOURCES],
    as [default_tab] the string ["overview"] and as [base_id] the
    configured base id.  For an ASCII name the lower-casing is that of the
    letters [A]-[Z]; the configured client gets the id [cellular_zone]
    and the tabs [overview], [ghl], [google_ads]. *)
Theorem frontend_config_spec (str_lower : string → string)
    (cls : ClientConfig) :
  let summary := get_client_config_for_frontend str_lower cls in
  client_id (client_info summary)
    = underscore_spaces (str_lower (CLIENT_NAME cls)) ∧
  business_name (client_info summary) = BUSINESS_NAME cls ∧
  enabled_sources (data_sources summary) = ENABLED_SOURCES cls ∧
  enabled_tabs (tab_configuration summary) = "overview" :: ENABLED_SOURCES cls ∧
  default_tab (tab_configuration summary) = "overview" ∧
  base_id (airtable_configuration summary) = AIRTABLE_BASE_ID cls ∧
  base_id (airtable_configuration summary) = get_base_id cls ∧
  (lowers_ascii str_lower →
   (ascii_text (CLIENT_NAME cls) = true →
    client_id (client_info summary)
      = underscore_spaces (lower (CLIENT_NAME cls))) ∧
   client_id (client_info (get_client_config_for_frontend str_lower Cellular_Zone))
     = "cellular_zone") ∧
  enabled_tabs (tab_configuration
                  (get_client_config_for_frontend str_lower Cellular_Zone))
    = ["overview"; "ghl"; "google_ads"] ∧
  default_tab (tab_configuration
                 (get_client_config_for_frontend str_lower Cellular_Zone))
    = "overview".
Proof.
  cbv zeta. cbn [get_client_config_for_frontend client_info client_id
    business_name data_sources enabled_sources tab_configuration enabled_tabs
    default_tab airtable_configuration base_id].
  rewrite !replace_space.
  do 7 (split; [reflexivity|]). split; [|split; reflexivity].
  intros Hlow. split.
  - intros Hascii. by rewrite (Hlow _ Hascii).
  - cbn [CLIENT_NAME Cellular_Zone]. by rewrite Hlow.
Qed.

Lemma frontend_config_spec_witness :
  client_id (client_info (get_client_config_for_frontend lower Cellular_Zone))
    = "cellular_zone" ∧
  client_id (client_info (get_client_config_for_frontend lower TEMPLATE_CLIENT))
    = underscore_spaces (lower (CLIENT_NAME TEMPLATE_CLIENT)).
Proof.
  assert (lowers_ascii lower) as Hlow by (intros s _; reflexivity).
  destruct (frontend_config_spec lower Cellular_Zone)
    as (_ & _ & _ & _ & _ & _ & _ & Hcz & _).
  destruct (frontend_config_spec lower TEMPLATE_CLIENT)
    as (_ & _ & _ & _ & _ & _ & _ & Htc & _).
  split.
  - exact (proj2 (Hcz Hlow)).
  - apply (proj1 (Htc Hlow)). reflexivity.
Defined.

(** ** Further properties of [server-config.py] *)

Section client_facts.

Lemma is_enabled_ext (c c' : ClientConfig) (s : string) :
  map_get (TABLE_IDS c) s = map_get (TABLE_IDS c') s →
  (s ∈ ENABLED_SOURCES c ↔ s ∈ ENABLED_SOURCES c') →
  is_enabled c s = is_enabled c' s.
Proof.
  intros Hid Hen. apply eq_true_iff_eq.
  rewrite !is_enabled_valid, Hid. tauto.
Qed.

Lemma fresh_entry_ext (c c' : ClientConfig) (id : option string)
    (suffix date_field : string) :
  CLIENT_NAME c = CLIENT_NAME c' →
  fresh_entry c id suffix date_field = fresh_entry c' id suffix date_field.
Proof. intros Hn. by rewrite !fresh_entry_items, Hn. Qed.

Lemma derived_from_ext (c c' : ClientConfig)
    (table : list (string * (string * string))) :
  CLIENT_NAME c = CLIENT_NAME c' →
  Forall (fun m => map_get (TABLE_IDS c) m.1 = map_get (TABLE_IDS c') m.1 ∧
                   (m.1 ∈ ENABLED_SOURCES c ↔ m.1 ∈ ENABLED_SOURCES c')) table →
  derived_from c table = derived_from c' table.
Proof.
  intros Hn. unfold derived_from.
  induction 1 as [|m table [Hid Hen] _ IH]; [done|].
  rewrite !filter_cons, <- (is_enabled_ext c c' m.1 Hid Hen).
  destruct (decide (is_enabled c m.1 = true)); [|done].
  cbn [map]. by rewrite IH, Hid, (fresh_entry_ext c c' _ _ _ Hn).
Qed.

Lemma derived_from_sublist (c c' : ClientConfig)
    (table : list (string * (string * string))) :
  CLIENT_NAME c = CLIENT_NAME c' →
  TABLE_IDS c = TABLE_IDS c' →
  (∀ s, s ∈ ENABLED_SOURCES c → s ∈ ENABLED_SOURCES c') →
  derived_from c table `sublist_of` derived_from c' table.
Proof.
  intros Hn Hid Hsub. unfold derived_from.
  induction table as [|m table IH]; [constructor|].
  rewrite !filter_cons.
  destruct (decide (is_enabled c m.1 = true)) as [Hen|Hen].
  - assert (is_enabled c' m.1 = true) as Hen'.
    { apply is_enabled_valid in Hen as [Hin Hv].
      apply is_enabled_valid. rewrite <- Hid. auto. }
    rewrite decide_True by done. cbn [map].
    assert (fresh_entry c (map_get (TABLE_IDS c) m.1) m.2.1 m.2.2
            = fresh_entry c' (map_get (TABLE_IDS c') m.1) m.2.1 m.2.2) as ->
      by (rewrite Hid; by apply fresh_entry_ext).
    by apply sublist_skip.
  - destruct (decide (is_enabled c' m.1 = true)); [|done].
    cbn [map]. by apply sublist_cons.
Qed.

End client_facts.

(** X1: the keys of [get_fresh_tables()] are the enabled source keys in
    the order of its seven blocks, whatever the order of
    [ENABLED_SOURCES]: they are distinct, a subsequence of the seven, and
    at most seven. *)
Theorem fresh_tables_key_order (cls : ClientConfig) :
  ∃ fresh, get_fresh_tables cls = Ok fresh ∧
    keys fresh = filter (fun k => is_enabled cls k = true) SOURCE_KEYS ∧
    keys fresh `sublist_of` SOURCE_KEYS ∧
    NoDup (keys fresh) ∧
    (length fresh ≤ 7)%nat.
Proof.
  exists (derived_fresh_tables cls).
  split; [apply get_fresh_tables_derived|].
  assert (keys (derived_fresh_tables cls)
          = filter (fun k => is_enabled cls k = true) SOURCE_KEYS) as Hk
    by exact (keys_derived_from cls SOURCE_METADATA).
  split; [exact Hk|]. split; [rewrite Hk; apply sublist_filter|].
  split; [apply derived_keys_NoDup|].
  replace (length (derived_fresh_tables cls))
    with (length (keys (derived_fresh_tables cls)))
    by (unfold keys; apply length_map).
  rewrite Hk. apply (length_filter _ SOURCE_KEYS).
Qed.

(** X2: [get_fresh_tables()] reads only the client name, the table ids of
    the seven source keys and which of these keys occur in
    [ENABLED_SOURCES].  Two clients that agree on these get the same
    mapping, whatever their business name, base id, [DISABLED_SOURCES],
    the order and repetitions in [ENABLED_SOURCES] and their other keys. *)
Theorem fresh_tables_inputs (c c' : ClientConfig) :
  CLIENT_NAME c = CLIENT_NAME c' →
  (∀ s, s ∈ SOURCE_KEYS →
        map_get (TABLE_IDS c) s = map_get (TABLE_IDS c') s) →
  (∀ s, s ∈ SOURCE_KEYS →
        (s ∈ ENABLED_SOURCES c ↔ s ∈ ENABLED_SOURCES c')) →
  get_fresh_tables c = get_fresh_tables c'.
Proof.
  intros Hn Hid Hen. rewrite !get_fresh_tables_derived. f_equal.
  unfold derived_fresh_tables. apply derived_from_ext; [exact Hn|].
  apply Forall_forall. intros m Hm.
  assert (m.1 ∈ SOURCE_KEYS) by (by apply list_elem_of_fmap_2).
  auto.
Qed.

(** Case analysis on a member of a list given by its elements. *)
Ltac member_cases H :=
  vm_compute in H;
  repeat (apply elem_of_cons in H as [->|H]);
  [..| exfalso; exact (proj1 (elem_of_nil _) H)].

Lemma fresh_tables_inputs_witness :
  get_fresh_tables Cellular_Zone = get_fresh_tables Cellular_Zone_reordered.
Proof.
  apply fresh_tables_inputs.
  - reflexivity.
  - intros s Hs. member_cases Hs; reflexivity.
  - intros s Hs. member_cases Hs; split; intros Hin;
      solve [by_compute | exfalso; revert Hin; by_compute].
Defined.

(** X3: enabling more sources only adds entries.  With the same client
    name and table ids, if every enabled source of one client is enabled
    for the other, the first mapping is a subsequence of the second: no
    entry is lost, changed or moved before another. *)
Theorem fresh_tables_monotone (c c' : ClientConfig) :
  CLIENT_NAME c = CLIENT_NAME c' →
  TABLE_IDS c = TABLE_IDS c' →
  (∀ s, s ∈ ENABLED_SOURCES c → s ∈ ENABLED_SOURCES c') →
  ∃ fresh fresh',
    get_fresh_tables c = Ok fresh ∧
    get_fresh_tables c' = Ok fresh' ∧
    fresh `sublist_of` fresh'.
Proof.
  intros Hn Hid Hsub.
  exists (derived_fresh_tables c), (derived_fresh_tables c').
  split; [apply get_fresh_tables_derived|].
  split; [apply get_fresh_tables_derived|].
  exact (derived_from_sublist c c' SOURCE_METADATA Hn Hid Hsub).
Qed.

Lemma fresh_tables_monotone_witness :
  ∃ fresh fresh',
    get_fresh_tables GHL_ONLY_CLIENT = Ok fresh ∧
    get_fresh_tables Cellular_Zone = Ok fresh' ∧
    fresh `sublist_of` fresh' ∧
    keys fresh = ["ghl"] ∧
    keys fresh' = ["ghl"; "google_ads"].
Proof.
  destruct (fresh_tables_monotone GHL_ONLY_CLIENT Cellular_Zone)
    as (fresh & fresh' & Hfresh & Hfresh' & Hsub).
  - reflexivity.
  - reflexivity.
  - intros s Hs. member_cases Hs. by_compute.
  - exists fresh, fresh'. repeat (split; [assumption|]).
    vm_compute in Hfresh, Hfresh'.
    injection Hfresh as <-. injection Hfresh' as <-.
    split; reflexivity.
Defined.

(** X4: [is_enabled] and [get_table_id] apply the same validity check.
    [is_enabled(s)] holds exactly when [s] is listed in [ENABLED_SOURCES]
    and [get_table_id(s)] is not [None]; and [get_table_id] never returns
    the empty string or ["null"]: it returns [None] or the configured
    id unchanged. *)
Theorem is_enabled_get_table_id (cls : ClientConfig) (s : string) :
  is_enabled cls s =
    contains (ENABLED_SOURCES cls) s && is_not_none (get_table_id cls s) ∧
  get_table_id cls s ≠ Some "" ∧
  get_table_id cls s ≠ Some "null" ∧
  (get_table_id cls s = None ∨
   get_table_id cls s = map_get (TABLE_IDS cls) s).
Proof.
  destruct (decide (valid_id (map_get (TABLE_IDS cls) s))) as [Hv|Hv].
  - rewrite (get_table_id_valid cls s Hv).
    destruct Hv as (Hn & He & Hl). repeat split; try done; [|by right].
    unfold is_enabled.
    rewrite (proj2 (py_ne_true _ _) He), (proj2 (py_ne_true _ _) Hl).
    by rewrite !andb_true_r.
  - rewrite (get_table_id_invalid cls s Hv).
    repeat split; try done; [|by left].
    cbn [is_not_none]. rewrite andb_false_r.
    apply not_true_is_false. rewrite is_enabled_valid. tauto.
Qed.

Section client_id_facts.

Lemma slug_char_shape (c : ascii) :
  slug_char c ≠ " "%char ∧ is_upper (slug_char c) = false ∧
  slug_char (slug_char c) = slug_char c.
Proof.
  destruct c as [[] [] [] [] [] [] [] []];
    (split; [discriminate | split; reflexivity]).
Qed.

Lemma slug_chars (s : string) :
  chars (underscore_spaces (lower s)) = map slug_char (chars s).
Proof.
  unfold chars. induction s as [|c s IH]; [done|].
  cbn [lower underscore_spaces String.list_ascii_of_string map].
  by rewrite IH.
Qed.

Lemma slug_length (s : string) :
  String.length (underscore_spaces (lower s)) = String.length s.
Proof.
  induction s as [|c s IH]; [done|].
  cbn [lower underscore_spaces String.length]. by rewrite IH.
Qed.

Lemma slug_idemp (s : string) :
  underscore_spaces (lower (underscore_spaces (lower s)))
  = underscore_spaces (lower s).
Proof.
  induction s as [|c s IH]; [done|].
  cbn [lower underscore_spaces]. rewrite IH. f_equal.
  apply (slug_char_shape c).
Qed.

Lemma slug_char_ascii (c : ascii) :
  is_ascii c = true → is_ascii (slug_char c) = true.
Proof. destruct c as [[] [] [] [] [] [] [] []]; exact (fun H => H). Qed.

Lemma slug_ascii (s : string) :
  ascii_text s = true → ascii_text (underscore_spaces (lower s)) = true.
Proof.
  unfold ascii_text. rewrite slug_chars, !forallb_forall.
  intros Hs c Hc. apply in_map_iff in Hc as (c0 & <- & Hc0).
  apply slug_char_ascii. by apply Hs.
Qed.

(** Whatever was lower-cased, no space is left. *)
Lemma underscore_spaces_no_space (s : string) :
  Forall (fun c => c ≠ " "%char) (chars (underscore_spaces s)).
Proof.
  unfold chars. induction s as [|c s IH]; [constructor|].
  cbn [underscore_spaces String.list_ascii_of_string].
  constructor; [|done].
  destruct (Ascii.eqb c " ") eqn:E; [discriminate|].
  by apply Ascii.eqb_neq.
Qed.

End client_id_facts.

(** X5: the [client_id] handed to the frontend never contains a space.
    For an ASCII client name it is ASCII, as long as the name, without
    upper-case letter, and a fixed point: a client named by its own
    [client_id] gets the same id. *)
Theorem client_id_shape (str_lower : string → string) (cls : ClientConfig) :
  let id :=
    client_id (client_info (get_client_config_for_frontend str_lower cls)) in
  Forall (fun c => c ≠ " "%char) (chars id) ∧
  (lowers_ascii str_lower →
   ascii_text (CLIENT_NAME cls) = true →
   String.length id = String.length (CLIENT_NAME cls) ∧
   ascii_text id = true ∧
   Forall (fun c => is_upper c = false) (chars id) ∧
   replace (str_lower id) " " "_" = id).
Proof.
  cbv zeta. cbn [get_client_config_for_frontend client_info client_id].
  rewrite !replace_space. split; [apply underscore_spaces_no_space|].
  intros Hlow Hascii. rewrite (Hlow _ Hascii).
  split; [apply slug_length|].
  pose proof (slug_ascii _ Hascii) as Hid.
  split; [exact Hid|]. split.
  - rewrite slug_chars. apply Forall_fmap, Forall_forall. intros c _.
    by destruct (slug_char_shape c) as (_ & Hu & _).
  - rewrite (Hlow _ Hid). apply slug_idemp.
Qed.

Lemma client_id_shape_witness :
  let id :=
    client_id (client_info (get_client_config_for_frontend lower Cellular_Zone)) in
  String.length id = 13%nat ∧
  ascii_text id = true ∧
  Forall (fun c => is_upper c = false) (chars id) ∧
  replace (lower id) " " "_" = id.
Proof.
  destruct (client_id_shape lower Cellular_Zone) as [_ Hshape].
  apply Hshape.
  - intros s _. reflexivity.
  - reflexivity.
Defined.

(** X6: the tab list starts with ["overview"], contains the default tab,
    has one tab per element of [ENABLED_SOURCES] after it, and is not
    filtered by [is_enabled]: every listed source has a tab even without a
    table id, so every key of [get_fresh_tables()] has a tab but a tab
    need not have a table. *)
Theorem tabs_cover_tables (str_lower : string → string) (cls : ClientConfig) :
  let frontend := get_client_config_for_frontend str_lower cls in
  let tabs := enabled_tabs (tab_configuration frontend) in
  head tabs = Some "overview" ∧
  default_tab (tab_configuration frontend) ∈ tabs ∧
  length tabs = S (length (ENABLED_SOURCES cls)) ∧
  (∀ s, s ∈ tabs ↔ s = "overview" ∨ s ∈ ENABLED_SOURCES cls) ∧
  (∀ fresh s, get_fresh_tables cls = Ok fresh → s ∈ keys fresh → s ∈ tabs) ∧
  (∀ s, s ∈ ENABLED_SOURCES cls → map_get (TABLE_IDS cls) s = None →
        s ∈ tabs ∧
        ∀ fresh, get_fresh_tables cls = Ok fresh → s ∉ keys fresh).
Proof.
  cbv zeta. cbn [get_client_config_for_frontend tab_configuration
    enabled_tabs default_tab app].
  split; [done|]. split; [apply list_elem_of_here|]. split; [done|].
  split; [intros s; apply elem_of_cons|].
  split.
  - intros fresh s Hfresh Hs.
    rewrite get_fresh_tables_derived in Hfresh. injection Hfresh as <-.
    apply derived_keys in Hs as [Hen _].
    apply is_enabled_valid in Hen as [Hin _].
    by apply list_elem_of_further.
  - intros s Hin Hnone. split; [by apply list_elem_of_further|].
    intros fresh Hfresh Hs.
    rewrite get_fresh_tables_derived in Hfresh. injection Hfresh as <-.
    apply derived_keys in Hs as [Hen _].
    apply is_enabled_valid in Hen as [_ (Hn & _)]. by destruct Hn.
Qed.

Lemma tabs_cover_tables_witness :
  "pos" ∈ enabled_tabs (tab_configuration
                          (get_client_config_for_frontend lower TABLELESS_CLIENT)) ∧
  ∀ fresh, get_fresh_tables TABLELESS_CLIENT = Ok fresh → "pos" ∉ keys fresh.
Proof.
  destruct (tabs_cover_tables lower TABLELESS_CLIENT)
    as (_ & _ & _ & _ & _ & Htab).
  apply (Htab "pos").
  - by_compute.
  - reflexivity.
Defined.

(** ** Further properties of [config.py] *)

Section active_mapping.

Lemma derived_valid_ids (cls : ClientConfig) :
  valid_ids (derived_fresh_tables cls).
Proof.
  apply Forall_forall. intros [k config] Hin.
  apply derived_elem in Hin as (Hen & suffix & df & _ & ->).
  apply is_enabled_valid in Hen as [_ Hv].
  apply valid_id_lookup in Hv as (t & Ht & He & Hl).
  apply map_get_Some in Ht. cbn [snd]. rewrite Ht, fresh_entry_items.
  exists (PyStr t). split; [done|]. by exists t.
Qed.

Lemma placeholder_valid_ids : valid_ids PLACEHOLDER_TABLES.
Proof.
  repeat (apply Forall_cons; split;
    [eexists; split; [reflexivity|]; eexists; split; [reflexivity|];
     split; discriminate|]).
  by apply Forall_nil.
Qed.

Lemma loaded_valid_ids (server_config : result ClientConfig)
    (fresh : odict TableConfig) :
  load_FRESH_TABLES server_config = Ok fresh → valid_ids fresh.
Proof.
  unfold load_FRESH_TABLES.
  destruct server_config as [client|e]; cbn [mbind result_bind].
  - rewrite get_fresh_tables_derived. intros [= <-]. apply derived_valid_ids.
  - destruct e; try done. intros [= <-]. apply placeholder_valid_ids.
Qed.

Lemma loaded_keys (server_config : result ClientConfig)
    (fresh : odict TableConfig) :
  load_FRESH_TABLES server_config = Ok fresh →
  keys fresh `sublist_of` SOURCE_KEYS ∨
  keys fresh = ["ghl"; "pos"; "meta_ads"; "meta_ads_summary";
                "meta_ads_simplified"; "google_ads"].
Proof.
  unfold load_FRESH_TABLES.
  destruct server_config as [client|e]; cbn [mbind result_bind].
  - rewrite get_fresh_tables_derived. intros [= <-]. left.
    unfold derived_fresh_tables. rewrite keys_derived_from.
    apply sublist_filter.
  - destruct e; try done. intros [= <-]. by right.
Qed.

Lemma get_table_config_find (fresh : odict TableConfig) (cls : class)
    (x : value) :
  get_table_config fresh cls x = find_table fresh x.
Proof. unfold get_table_config. by rewrite getattr_FRESH_TABLES. Qed.

(** What the loop returns, entry by entry. *)
Lemma find_table_Some (entries : list (string * TableConfig)) (x : value)
    (r : TableConfig) :
  shaped entries →
  find_table entries x = Ok (Some r) →
  ∃ pre table_type config post,
    entries = pre ++ (table_type, config) :: post ∧
    no_match x pre ∧
    subscript config "id" = Ok x ∧
    keys config = ENTRY_KEYS ∧
    r = config ++ [("type", PyStr table_type); ("is_legacy", PyBool false)].
Proof.
  intros Hs Hfind.
  destruct (find_table_first entries x Hs)
    as [[Hnone _]|(pre & k & c & post & He & Hpre & Hc & Hf)].
  - rewrite Hnone in Hfind. discriminate.
  - rewrite Hf in Hfind. injection Hfind as <-.
    assert (keys c = ENTRY_KEYS) as Hk.
    { unfold shaped in Hs. rewrite He in Hs.
      apply Forall_app in Hs as [_ Hs]. by apply Forall_cons in Hs as [Hk _]. }
    exists pre, k, c, post. by rewrite (with_type_items c k Hk).
Qed.

Lemma find_table_None (entries : list (string * TableConfig)) (x : value) :
  shaped entries →
  no_match x entries → find_table entries x = Ok None.
Proof.
  intros Hs Hno.
  destruct (find_table_first entries x Hs)
    as [[Hnone _]|(pre & k & c & post & -> & _ & Hc & _)]; [done|].
  unfold no_match in Hno. apply Forall_app in Hno as [_ Hno].
  apply Forall_cons in Hno as [Hno _]. by destruct Hno.
Qed.

End active_mapping.

(** X7: whatever the import did, the mapping [Config] holds has distinct
    keys, all of them among the seven source keys, at most seven entries,
    and in every entry exactly the four keys, with an [id] that is a
    string other than the empty string and ["null"]. *)
Theorem active_mapping_invariant (server_config : result ClientConfig)
    (fresh : odict TableConfig) :
  load_FRESH_TABLES server_config = Ok fresh →
  NoDup (keys fresh) ∧
  (∀ k, k ∈ keys fresh → k ∈ SOURCE_KEYS) ∧
  (length fresh ≤ 7)%nat ∧
  shaped fresh ∧
  valid_ids fresh.
Proof.
  intros Hload.
  destruct (loaded_shape _ _ Hload) as [Hnd Hs].
  pose proof (loaded_valid_ids _ _ Hload) as Hv.
  repeat split; try done.
  - intros k Hk. destruct (loaded_keys _ _ Hload) as [Hsub|Heq].
    + by apply (elem_of_sublist _ _ _ Hk).
    + rewrite Heq in Hk. member_cases Hk; by_compute.
  - replace (length fresh) with (length (keys fresh))
      by (unfold keys; apply length_map).
    destruct (loaded_keys _ _ Hload) as [Hsub|Heq].
    + by apply sublist_length in Hsub.
    + rewrite Heq. cbn. lia.
Qed.

Lemma active_mapping_invariant_witness :
  NoDup (keys PLACEHOLDER_TABLES) ∧ valid_ids PLACEHOLDER_TABLES.
Proof.
  destruct (active_mapping_invariant (Raise ImportError) PLACEHOLDER_TABLES)
    as (Hnd & _ & _ & _ & Hv); [reflexivity|].
  by split.
Defined.

(** X8: [get_table_config] answers [None] to [None], to a boolean, to
    the empty string and to ["null"], on every mapping [Config] can hold:
    a disabled source can never be reached through such an id. *)
Theorem table_config_rejects_invalid (server_config : result ClientConfig)
    (fresh : odict TableConfig) (cls : class) (x : value) :
  load_FRESH_TABLES server_config = Ok fresh →
  x = PyNone ∨ (∃ b, x = PyBool b) ∨ x = PyStr "" ∨ x = PyStr "null" →
  get_table_config fresh cls x = Ok None.
Proof.
  intros Hload Hx. rewrite get_table_config_find.
  destruct (loaded_shape _ _ Hload) as [_ Hs].
  apply find_table_None; [done|].
  pose proof (loaded_valid_ids _ _ Hload) as Hv.
  unfold no_match, valid_ids in *.
  eapply Forall_impl; [exact Hv|]. cbn beta.
  intros [k c] (v & Hid & t & -> & He & Hl) Heq. cbn [snd] in *.
  rewrite Hid in Heq. injection Heq as <-.
  destruct Hx as [Hx|[[b Hx]|[Hx|Hx]]]; congruence.
Qed.

Lemma table_config_rejects_invalid_witness :
  get_table_config PLACEHOLDER_TABLES ProductionConfig (PyStr "null") = Ok None.
Proof.
  apply (table_config_rejects_invalid (Raise ImportError)).
  - reflexivity.
  - right. right. right. reflexivity.
Defined.

Section lookup_facts.

Lemma dict_get_app {A} (d d' : odict A) (k : string) :
  dict_get (d ++ d') k =
  match dict_get d k with
  | Some v => Some v
  | None => dict_get d' k
  end.
Proof.
  induction d as [|[k' v'] d IH]; [done|].
  cbn [app dict_get]. by destruct (String.eqb k' k).
Qed.

Lemma subscript_app_l {A} (d d' : odict A) (k : string) (v : A) :
  subscript d k = Ok v → subscript (d ++ d') k = Ok v.
Proof.
  unfold subscript. rewrite dict_get_app.
  by destruct (dict_get d k).
Qed.

Lemma subscript_app_r {A} (d d' : odict A) (k : string) :
  k ∉ keys d → subscript (d ++ d') k = subscript d' k.
Proof.
  intros Hk. apply dict_get_None in Hk.
  unfold subscript. by rewrite dict_get_app, Hk.
Qed.

Lemma subscript_app_key {A} (d d' : odict A) (k : string) :
  k ∈ keys d → subscript (d ++ d') k = subscript d k.
Proof.
  intros Hk. unfold subscript. rewrite dict_get_app.
  destruct (dict_get d k) eqn:E; [done|].
  apply dict_get_None in E. by destruct E.
Qed.

(** The ids listed are the ids some entry has. *)
Lemma listed_iff (ids : list value) (configs : list TableConfig) (x : value) :
  Forall2 (fun id config => subscript config "id" = Ok id) ids configs →
  x ∈ ids ↔ Exists (fun config => subscript config "id" = Ok x) configs.
Proof.
  induction 1 as [|id config ids configs Hid _ IH].
  - rewrite Exists_nil. apply elem_of_nil.
  - rewrite elem_of_cons, Exists_cons, IH, Hid.
    split; (intros [H|H]; [left; congruence | by right]).
Qed.

Lemma no_match_not_listed (entries : list (string * TableConfig)) (x : value) :
  no_match x entries ↔
  ¬ Exists (fun config => subscript config "id" = Ok x) (values entries).
Proof.
  unfold no_match, values. rewrite <- Forall_Exists_neg, Forall_fmap. done.
Qed.

End lookup_facts.

(** X9: [get_table_config] finds exactly the ids [get_all_table_ids]
    lists.  The list has one id per entry; for a listed id the lookup
    returns a dictionary whose [id] is that id, for any other value it
    returns [None]; neither call raises. *)
Theorem table_config_iff_listed (server_config : result ClientConfig)
    (fresh : odict TableConfig) (cls cls' : class) (x : value) :
  load_FRESH_TABLES server_config = Ok fresh →
  ∃ ids,
    get_all_table_ids fresh cls = Ok ids ∧
    length ids = length fresh ∧
    (x ∈ ids →
     ∃ r, get_table_config fresh cls' x = Ok (Some r) ∧
          subscript r "id" = Ok x) ∧
    (x ∉ ids → get_table_config fresh cls' x = Ok None).
Proof.
  intros Hload. destruct (loaded_shape _ _ Hload) as [_ Hs].
  destruct (ids_of_all (values fresh)) as (ids & Hids & Hall).
  { unfold values. by apply Forall_fmap. }
  exists ids. split.
  { unfold get_all_table_ids. rewrite getattr_FRESH_TABLES.
    cbn [mbind result_bind]. by rewrite Hids. }
  split.
  { rewrite (Forall2_length _ _ _ Hall). unfold values. apply length_map. }
  rewrite get_table_config_find, (listed_iff _ _ _ Hall),
    <- no_match_not_listed.
  split.
  - intros Hin.
    destruct (find_table_first fresh x Hs)
      as [[_ Hno]|(pre & k & c & post & He & _ & Hc & Hf)].
    + apply no_match_not_listed in Hno. by destruct Hno.
    + assert (keys c = ENTRY_KEYS) as Hk.
      { unfold shaped in Hs. rewrite He in Hs.
        apply Forall_app in Hs as [_ Hs]. by apply Forall_cons in Hs as [Hk _]. }
      rewrite Hf, (with_type_items c k Hk). eexists. split; [done|].
      by apply subscript_app_l.
  - by apply find_table_None.
Qed.

Lemma table_config_iff_listed_witness :
  ∃ ids,
    get_all_table_ids PLACEHOLDER_TABLES TestConfig = Ok ids ∧
    length ids = 6%nat ∧
    (PyStr "tblUnknown" ∉ ids →
     get_table_config PLACEHOLDER_TABLES ProductionConfig (PyStr "tblUnknown")
     = Ok None).
Proof.
  destruct (table_config_iff_listed (Raise ImportError) PLACEHOLDER_TABLES
              TestConfig ProductionConfig (PyStr "tblUnknown"))
    as (ids & Hids & Hlen & _ & Hnone); [reflexivity|].
  exists ids. by repeat split.
Defined.

(** X10: a dictionary returned by [get_table_config(x)] has the four keys
    of an entry followed by ['type'] and ['is_legacy'], has [x] as its
    [id] and [False] as ['is_legacy'], and leads back to its entry:
    [FRESH_TABLES[r['type']]] exists, has [x] as its [id] and agrees with
    the result on all four keys. *)
Theorem table_config_round_trip (server_config : result ClientConfig)
    (fresh : odict TableConfig) (cls : class) (x : value) (r : TableConfig) :
  load_FRESH_TABLES server_config = Ok fresh →
  get_table_config fresh cls x = Ok (Some r) →
  keys r = ENTRY_KEYS ++ ["type"; "is_legacy"] ∧
  subscript r "id" = Ok x ∧
  subscript r "is_legacy" = Ok (PyBool false) ∧
  ∃ table_type config,
    subscript r "type" = Ok (PyStr table_type) ∧
    subscript fresh table_type = Ok config ∧
    subscript config "id" = Ok x ∧
    ∀ f, f ∈ ENTRY_KEYS → subscript r f = subscript config f.
Proof.
  intros Hload Hget. destruct (loaded_shape _ _ Hload) as [Hnd Hs].
  rewrite get_table_config_find in Hget.
  destruct (find_table_Some _ _ _ Hs Hget)
    as (pre & k & c & post & He & _ & Hc & Hk & ->).
  assert (("type" ∉ keys c) ∧ ("is_legacy" ∉ keys c)) as [Ht Hl]
    by (rewrite Hk; split; by_compute).
  split; [unfold keys in *; by rewrite map_app, Hk|].
  split; [by apply subscript_app_l|].
  split; [by rewrite subscript_app_r|].
  exists k, c. split; [by rewrite subscript_app_r|]. split.
  - unfold subscript. erewrite dict_get_unique; [done | done |].
    rewrite He. apply elem_of_app. right. apply list_elem_of_here.
  - split; [done|]. intros f Hf. apply subscript_app_key. by rewrite Hk.
Qed.

Lemma table_config_round_trip_witness :
  ∃ table_type config,
    subscript
      [("id", PyStr "CLIENT_POS_TABLE_ID"); ("name", PyStr "CLIENT_NAME POS");
       ("date_field", PyStr "Created"); ("sort_direction", PyStr "desc");
       ("type", PyStr "pos"); ("is_legacy", PyBool false)] "type"
    = Ok (PyStr table_type) ∧
    subscript PLACEHOLDER_TABLES table_type = Ok config ∧
    subscript config "id" = Ok (PyStr "CLIENT_POS_TABLE_ID").
Proof.
  destruct (table_config_round_trip (Raise ImportError) PLACEHOLDER_TABLES
              Config (PyStr "CLIENT_POS_TABLE_ID")
              [("id", PyStr "CLIENT_POS_TABLE_ID");
               ("name", PyStr "CLIENT_NAME POS");
               ("date_field", PyStr "Created");
               ("sort_direction", PyStr "desc");
               ("type", PyStr "pos"); ("is_legacy", PyBool false)])
    as (_ & _ & _ & k & c & Ht & Hf & Hid & _).
  - reflexivity.
  - vm_compute. reflexivity.
  - by exists k, c.
Defined.

Section imported_client.

Variable client : ClientConfig.

Lemma load_imported :
  load_FRESH_TABLES (Ok client) = Ok (derived_fresh_tables client).
Proof.
  unfold load_FRESH_TABLES. cbn [mbind result_bind].
  by rewrite get_fresh_tables_derived.
Qed.

Lemma enabled_table_id_value (k : string) :
  is_enabled client k = true →
  ∃ t, map_get (TABLE_IDS client) k = Some t ∧
       get_table_id client k = Some t ∧ t ≠ "" ∧ t ≠ "null".
Proof.
  intros Hen. apply is_enabled_valid in Hen as [_ Hv].
  rewrite (get_table_id_valid client k Hv).
  apply valid_id_lookup in Hv as (t & Ht & He & Hl).
  apply map_get_Some in Ht. by exists t.
Qed.

Lemma ids_of_derived_from (table : list (string * (string * string))) :
  ids_of (values (derived_from client table)) =
  Ok (map (fun k => to_value (get_table_id client k))
          (filter (fun k => is_enabled client k = true) (map fst table))).
Proof.
  unfold values, derived_from.
  induction table as [|m table IH]; [done|].
  cbn [map]. rewrite !filter_cons. cbn [fst].
  destruct (decide (is_enabled client m.1 = true)) as [Hen|Hen]; [|done].
  destruct (enabled_table_id_value _ Hen) as (t & Hg & Hid & _).
  cbn [map snd ids_of]. rewrite IH, Hg, Hid, fresh_entry_items. done.
Qed.

End imported_client.

(** X11: when the import succeeds, [Config.get_all_table_ids()] is the
    list of [ClientConfig.get_table_id(k)] for the enabled source keys
    [k], in the order of the blocks of [get_fresh_tables]; every id in it
    is a string other than the empty string and ["null"]. *)
Theorem all_table_ids_of_client (client : ClientConfig) (cls : class) :
  ∃ fresh,
    load_FRESH_TABLES (Ok client) = Ok fresh ∧
    get_all_table_ids fresh cls = Ok (enabled_ids client) ∧
    Forall valid_value (enabled_ids client).
Proof.
  exists (derived_fresh_tables client). split; [apply load_imported|]. split.
  - unfold get_all_table_ids. rewrite getattr_FRESH_TABLES.
    cbn [mbind result_bind]. unfold derived_fresh_tables.
    by rewrite ids_of_derived_from.
  - unfold enabled_ids. apply Forall_fmap, Forall_forall. intros k Hk.
    apply list_elem_of_filter in Hk as [Hen _].
    destruct (enabled_table_id_value _ _ Hen) as (t & _ & Hid & He & Hl).
    unfold compose. rewrite Hid. by exists t.
Qed.

(** X12: looking up the table id of an enabled source key always finds a
    table with that id; when no other enabled source key has the same
    id, the table found is that key's: key to id to key is a round trip. *)
Theorem table_config_of_enabled_key (client : ClientConfig) (cls : class)
    (k : string) :
  k ∈ SOURCE_KEYS →
  is_enabled client k = true →
  ∃ fresh t r,
    load_FRESH_TABLES (Ok client) = Ok fresh ∧
    get_table_id client k = Some t ∧
    get_table_config fresh cls (PyStr t) = Ok (Some r) ∧
    subscript r "id" = Ok (PyStr t) ∧
    ((∀ k', k' ∈ SOURCE_KEYS → is_enabled client k' = true →
            get_table_id client k' = Some t → k' = k) →
     subscript r "type" = Ok (PyStr k)).
Proof.
  intros Hkey Hen.
  destruct (enabled_table_id_value _ _ Hen) as (t & Hg & Hid & _).
  exists (derived_fresh_tables client), t.
  pose proof (derived_shape client) as Hs.
  rewrite get_table_config_find.
  destruct (find_table_first (derived_fresh_tables client) (PyStr t) Hs)
    as [[_ Hno]|(pre & k0 & c0 & post & He & _ & Hc & Hf)].
  - exfalso. apply list_elem_of_fmap in Hkey as ([k1 [suffix df]] & -> & Hin).
    cbn [fst] in *. unfold no_match in Hno. rewrite Forall_forall in Hno.
    apply (Hno (k1, fresh_entry client (map_get (TABLE_IDS client) k1) suffix df)).
    + apply derived_elem. eauto.
    + cbn [snd]. by rewrite Hg, fresh_entry_items.
  - assert ((k0, c0) ∈ derived_fresh_tables client) as Hin0.
    { rewrite He. apply elem_of_app. right. apply list_elem_of_here. }
    pose proof Hin0 as Hel.
    apply derived_elem in Hel as (Hen0 & suffix & df & Hm & ->).
    rewrite Hf, with_type_items by done.
    eexists. split; [apply load_imported|]. split; [done|]. split; [done|].
    split; [by apply subscript_app_l|].
    intros Huniq. rewrite subscript_app_r by by_compute.
    destruct (enabled_table_id_value _ _ Hen0) as (t0 & Hg0 & Hid0 & _).
    rewrite Hg0, fresh_entry_items in Hc. injection Hc as ->.
    rewrite (Huniq k0); [done | | done | done].
    apply list_elem_of_fmap. by exists (k0, (suffix, df)).
Qed.

Lemma table_config_of_enabled_key_witness :
  ∃ fresh t r,
    load_FRESH_TABLES (Ok Cellular_Zone) = Ok fresh ∧
    get_table_id Cellular_Zone "google_ads" = Some t ∧
    get_table_config fresh TestConfig (PyStr t) = Ok (Some r) ∧
    subscript r "id" = Ok (PyStr t).
Proof.
  destruct (table_config_of_enabled_key Cellular_Zone TestConfig "google_ads")
    as (fresh & t & r & Hload & Hid & Hget & Hr & _).
  - by_compute.
  - reflexivity.
  - exists fresh, t, r. repeat split; assumption.
Defined.

(** X13: a client that is imported but has no source key enabled gives an
    empty mapping, not the placeholder: no table id is listed and every
    lookup by id answers [None]. *)
Theorem nothing_enabled (client : ClientConfig) (cls : class) (x : value) :
  (∀ s, s ∈ SOURCE_KEYS → is_enabled client s = false) →
  ∃ fresh,
    load_FRESH_TABLES (Ok client) = Ok fresh ∧
    fresh = [] ∧
    get_all_table_ids fresh cls = Ok [] ∧
    get_table_config fresh cls x = Ok None.
Proof.
  intros Hnone. exists (derived_fresh_tables client).
  assert (derived_fresh_tables client = []) as Hempty.
  { apply elem_of_nil_inv. intros [k c] Hin.
    apply derived_elem in Hin as (Hen & suffix & df & Hm & _).
    rewrite Hnone in Hen; [done|].
    apply list_elem_of_fmap. by exists (k, (suffix, df)). }
  split; [apply load_imported|]. rewrite Hempty. split; [done|]. split.
  - unfold get_all_table_ids. by rewrite getattr_FRESH_TABLES.
  - by rewrite get_table_config_find.
Qed.

Lemma nothing_enabled_witness :
  ∃ fresh,
    load_FRESH_TABLES (Ok UNLISTED_CLIENT) = Ok fresh ∧
    fresh = [] ∧
    get_all_table_ids fresh Config = Ok [] ∧
    get_table_config fresh Config (PyStr "tblPosTable") = Ok None.
Proof.
  apply nothing_enabled. intros s Hs. member_cases Hs; reflexivity.
Defined.

(** ** Further properties of [get_config] and the profiles *)

Section selection_facts.

Lemma lower_length (s : string) : String.length (lower s) = String.length s.
Proof. induction s as [|c s IH]; [done|]. cbn [lower String.length]. by rewrite IH. Qed.

Lemma lower_chars (s : string) : chars (lower s) = map lower_char (chars s).
Proof.
  unfold chars. induction s as [|c s IH]; [done|].
  cbn [lower String.list_ascii_of_string map]. by rewrite IH.
Qed.

Lemma lower_char_letter (c : ascii) :
  is_letter (lower_char c) = true → is_letter c = true.
Proof. destruct c as [[] [] [] [] [] [] [] []]; exact (fun H => H). Qed.

Lemma lower_letters (s : string) :
  Forall (fun c => is_letter c = true) (chars (lower s)) →
  Forall (fun c => is_letter c = true) (chars s).
Proof.
  rewrite lower_chars, Forall_fmap. intros H.
  eapply Forall_impl; [exact H|]. intros c. apply lower_char_letter.
Qed.

(** A value that lower-cases to a word of letters is itself a word of
    letters of the same length. *)
Lemma lower_word (v w : string) :
  lower v = w →
  Forall (fun c => is_letter c = true) (chars w) →
  String.length v = String.length w ∧
  Forall (fun c => is_letter c = true) (chars v).
Proof.
  intros <- Hw. split; [by rewrite lower_length | by apply lower_letters].
Qed.

End selection_facts.

(** X14: [get_config] never returns the base class [Config].  The
    profile it returns always has a [DEBUG] attribute, which is false
    exactly for the production profile, while [Config.DEBUG] itself
    raises [AttributeError]. *)
Theorem selected_profile_debug (fresh : odict TableConfig)
    (environ : gmap string string) :
  get_config environ ≠ Config ∧
  getattr fresh Config DEBUG "DEBUG" = Raise (AttributeError "DEBUG") ∧
  ∃ b, getattr fresh (get_config environ) DEBUG "DEBUG" = Ok b ∧
       (b = false ↔ get_config environ = ProductionConfig).
Proof.
  rewrite get_config_unfold. cbv zeta.
  repeat case_bool_decide; (split; [done|]; split; [done|]).
  - exists true. split; [done|]. split; discriminate.
  - exists true. split; [done|]. split; discriminate.
  - exists false. by split.
Qed.

(** X15: [get_config] compares the whole value, without trimming it.  A
    profile other than production is selected only when [FLASK_ENV] is
    set to a value of eleven or seven characters, all of them ASCII
    letters; an unset, empty, padded or abbreviated value selects
    production. *)
Theorem get_config_strict (environ : gmap string string) :
  get_config environ ≠ ProductionConfig →
  ∃ v, environ !! "FLASK_ENV" = Some v ∧
       (String.length v = 11 ∨ String.length v = 7)%nat ∧
       Forall (fun c => is_letter c = true) (chars v).
Proof.
  rewrite get_config_unfold. cbv zeta.
  destruct (environ !! "FLASK_ENV") as [v|]; cbn [default]; [|done].
  intros Hsel. exists v. split; [done|].
  destruct (decide (lower v = "development")) as [Hd|Hd].
  - destruct (lower_word v _ Hd) as [Hlen Hall]; [by repeat constructor|].
    split; [by left | done].
  - rewrite (bool_decide_eq_false_2 _ Hd) in Hsel.
    destruct (decide (lower v = "testing")) as [Ht|Ht].
    + destruct (lower_word v _ Ht) as [Hlen Hall]; [by repeat constructor|].
      split; [by right | done].
    + by rewrite (bool_decide_eq_false_2 _ Ht) in Hsel.
Qed.

Lemma get_config_strict_witness :
  ∃ v, (<["FLASK_ENV" := "Testing"]> ∅ : gmap string string) !! "FLASK_ENV"
       = Some v ∧
       (String.length v = 11 ∨ String.length v = 7)%nat ∧
       Forall (fun c => is_letter c = true) (chars v).
Proof.
  apply (get_config_strict (<["FLASK_ENV" := "Testing"]> ∅)).
  vm_compute. discriminate.
Defined.

(** X16: no profile changes the API endpoints, host, port, timeouts,
    per-request cap, date format, log rotation or the table mappings:
    these resolve to the values of [Config] on every class.  On every
    class the three pagination limits are positive, the per-request cap
    does not exceed the total cap, no profile raises the total cap or the
    page cap above those of [Config], and the allowed origins are among
    those of [Config]. *)
Theorem profile_invariants (fresh : odict TableConfig) (cls : class) :
  (getattr fresh cls CLAUDE_API_URL "CLAUDE_API_URL"
     = getattr fresh Config CLAUDE_API_URL "CLAUDE_API_URL" ∧
   getattr fresh cls AIRTABLE_BASE_URL "AIRTABLE_BASE_URL"
     = getattr fresh Config AIRTABLE_BASE_URL "AIRTABLE_BASE_URL" ∧
   getattr fresh cls HOST "HOST" = getattr fresh Config HOST "HOST" ∧
   getattr fresh cls PORT "PORT" = getattr fresh Config PORT "PORT" ∧
   getattr fresh cls CLAUDE_API_TIMEOUT "CLAUDE_API_TIMEOUT"
     = getattr fresh Config CLAUDE_API_TIMEOUT "CLAUDE_API_TIMEOUT" ∧
   getattr fresh cls AIRTABLE_API_TIMEOUT "AIRTABLE_API_TIMEOUT"
     = getattr fresh Config AIRTABLE_API_TIMEOUT "AIRTABLE_API_TIMEOUT" ∧
   getattr fresh cls LOG_DATE_FORMAT "LOG_DATE_FORMAT"
     = getattr fresh Config LOG_DATE_FORMAT "LOG_DATE_FORMAT" ∧
   getattr fresh cls LOG_FILE_MAX_BYTES "LOG_FILE_MAX_BYTES" = Ok 10485760 ∧
   getattr fresh cls LOG_BACKUP_COUNT "LOG_BACKUP_COUNT"
     = getattr fresh Config LOG_BACKUP_COUNT "LOG_BACKUP_COUNT" ∧
   getattr fresh cls FRESH_TABLES "FRESH_TABLES" = Ok fresh ∧
   getattr fresh cls LEGACY_TABLES "LEGACY_TABLES" = Ok []) ∧
  (∃ per_request total pages,
     getattr fresh cls MAX_RECORDS_PER_REQUEST "MAX_RECORDS_PER_REQUEST"
       = Ok per_request ∧
     getattr fresh cls MAX_TOTAL_RECORDS "MAX_TOTAL_RECORDS" = Ok total ∧
     getattr fresh cls MAX_PAGINATION_PAGES "MAX_PAGINATION_PAGES" = Ok pages ∧
     per_request = 100 ∧
     0 < per_request <= total ∧ total <= 10000 ∧
     0 < pages <= 50) ∧
  (∃ origins base_origins,
     getattr fresh cls CORS_ORIGINS "CORS_ORIGINS" = Ok origins ∧
     getattr fresh Config CORS_ORIGINS "CORS_ORIGINS" = Ok base_origins ∧
     origins ⊆ base_origins).
Proof.
  split; [by destruct cls|]. split.
  - destruct cls; do 3 eexists;
      (split; [reflexivity|]; split; [reflexivity|]; split; [reflexivity|]);
      lia.
  - destruct cls; do 2 eexists;
      (split; [reflexivity|]; split; [reflexivity|]);
      first [done | by_compute].
Qed.

(** ** The import and the placeholder *)

Lemma derived_keys_not_placeholder (client : ClientConfig) :
  keys (derived_fresh_tables client) ≠ keys PLACEHOLDER_TABLES.
Proof.
  unfold derived_fresh_tables. rewrite keys_derived_from.
  intros Heq.
  assert ("google_ads" ∈ keys PLACEHOLDER_TABLES) as Hg by by_compute.
  assert ("meta_ads" ∈ keys PLACEHOLDER_TABLES) as Hm by by_compute.
  rewrite <- Heq in Hg, Hm.
  apply list_elem_of_filter in Hg as [Hg _].
  apply list_elem_of_filter in Hm as [Hm _].
  revert Heq. unfold SOURCE_KEYS, SOURCE_METADATA. cbn [map fst].
  rewrite !filter_cons, filter_nil.
  rewrite (decide_True _ _ Hg), (decide_True _ _ Hm).
  repeat case_decide; vm_compute; discriminate.
Qed.

(** X17: the placeholder is never the mapping of an imported client: its
    keys come in an order [get_fresh_tables] cannot produce.  So
    [FRESH_TABLES] is the placeholder exactly when the import raised
    [ImportError], and the class body raises exactly when the import
    raised something else. *)
Theorem placeholder_iff_import_error (server_config : result ClientConfig) :
  (load_FRESH_TABLES server_config = Ok PLACEHOLDER_TABLES ↔
   server_config = Raise ImportError) ∧
  (∀ client, server_config = Ok client →
     load_FRESH_TABLES server_config = get_fresh_tables client) ∧
  (∀ e, load_FRESH_TABLES server_config = Raise e ↔
        server_config = Raise e ∧ e ≠ ImportError).
Proof.
  destruct server_config as [client|e].
  - rewrite load_imported. repeat split; try done.
    + intros [= Heq]. destruct (derived_keys_not_placeholder client).
      by rewrite Heq.
    + intros client' [= <-]. by rewrite get_fresh_tables_derived.
    + by intros [? _].
  - unfold load_FRESH_TABLES. cbn [mbind result_bind].
    split; [|split].
    + destruct e; split; intros H; done.
    + intros client H. discriminate H.
    + intros e0. destruct e; split;
        try (intros [[= <-] Hne]; done); intros [= <-]; done.
Qed.

(** X18: when several enabled sources share a table id, a lookup by
    that id returns the one whose block comes first in
    [get_fresh_tables], whatever the order of [ENABLED_SOURCES]; the
    later ones cannot be reached by id. *)
Theorem table_config_first_block (client : ClientConfig)
    (fresh : odict TableConfig) (cls : class) (t k : string)
    (r : TableConfig) :
  load_FRESH_TABLES (Ok client) = Ok fresh →
  get_table_config fresh cls (PyStr t) = Ok (Some r) →
  subscript r "type" = Ok (PyStr k) →
  ∃ pre post,
    filter (fun s => is_enabled client s = true) SOURCE_KEYS = pre ++ k :: post ∧
    get_table_id client k = Some t ∧
    ∀ k', k' ∈ pre → get_table_id client k' ≠ Some t.
Proof.
  rewrite load_imported. intros [= <-] Hget Htype.
  rewrite get_table_config_find in Hget.
  destruct (find_table_Some _ _ _ (derived_shape client) Hget)
    as (pre & k0 & c0 & post & He & Hpre & Hc & Hk & ->).
  rewrite subscript_app_r in Htype by (rewrite Hk; by_compute).
  injection Htype as <-.
  assert (∀ k' c', (k', c') ∈ derived_fresh_tables client →
            subscript c' "id" = Ok (to_value (get_table_id client k'))) as Hid.
  { intros k' c' Hin. apply derived_elem in Hin as (Hen & suffix & df & _ & ->).
    destruct (enabled_table_id_value _ _ Hen) as (t' & Hg & -> & _).
    by rewrite Hg, fresh_entry_items. }
  exists (keys pre), (keys post). split; [|split].
  - pose proof (keys_derived_from client SOURCE_METADATA) as Hkeys.
    fold (derived_fresh_tables client) in Hkeys. fold SOURCE_KEYS in Hkeys.
    rewrite <- Hkeys, He. unfold keys. by rewrite map_app.
  - assert ((k0, c0) ∈ derived_fresh_tables client) as Hin.
    { rewrite He. apply elem_of_app. right. apply list_elem_of_here. }
    rewrite (Hid _ _ Hin) in Hc. injection Hc as Hc.
    destruct (get_table_id client k0); cbn in Hc; congruence.
  - intros k' Hk' Heq. apply list_elem_of_fmap in Hk' as ([k1 c1] & -> & Hin1).
    cbn [fst] in Heq. unfold no_match in Hpre. rewrite Forall_forall in Hpre.
    apply (Hpre _ Hin1). cbn [snd]. rewrite (Hid k1 c1), Heq; [done|].
    rewrite He. apply elem_of_app. by left.
Qed.

Lemma table_config_first_block_witness :
  ∃ pre post,
    filter (fun s => is_enabled SHARED_ID_CLIENT s = true) SOURCE_KEYS
      = pre ++ "pos" :: post ∧
    get_table_id SHARED_ID_CLIENT "pos" = Some "tblShared" ∧
    ∀ k', k' ∈ pre → get_table_id SHARED_ID_CLIENT k' ≠ Some "tblShared".
Proof.
  apply (table_config_first_block SHARED_ID_CLIENT
           (derived_fresh_tables SHARED_ID_CLIENT) Config "tblShared" "pos"
           [("id", PyStr "tblShared"); ("name", PyStr "Cellular Zone POS");
            ("date_field", PyStr "Created"); ("sort_direction", PyStr "desc");
            ("type", PyStr "pos"); ("is_legacy", PyBool false)]).
  - vm_compute. reflexivity.
  - vm_compute. reflexivity.
  - reflexivity.
Defined.

Lemma placeholder_iff_import_error_witness :
  load_FRESH_TABLES (Ok Cellular_Zone) = get_fresh_tables Cellular_Zone.
Proof.
  destruct (placeholder_iff_import_error (Ok Cellular_Zone)) as (_ & Hok & _).
  apply Hok. reflexivity.
Defined.
